(** * UltraDNS provider for octoDNS: a shallow embedding of
    [octodns_ultra/__init__.py] and the properties of its transport, zone
    lister, record fetcher, record codec and applier.

    Conventions of the embedding.

    - A Python value that comes out of [resp.json()] (or is put into a request
      body) is a [JSON] term.  JSON numbers are integers (the vendor's counts,
      offsets, TTLs and error codes all are); a Python [str] is [JStr]; a
      decoded object is [JObj], the list of its items in insertion order.
    - The provider object is the record [Provider]: the two caches of the
      class, the account name, and [sent], the requests the session has
      issued so far.  A method is a function [Provider -> Outcome A * Provider].
    - The vendor is a [Server]: the function that answers a request, given
      the whole history of requests up to and including it.  [resp.json()]
      is the [json_body] of the response ([None] when the body does not
      decode); connection failures and timeouts are not modelled.
    - An exception is a constructor of [Exc]; code that raises returns
      [Raise e] with the state reached so far.  The two [while paging] loops
      run on fuel, and [Diverge] is the outcome of a loop that is still
      paging when the fuel is spent. *)

From Stdlib Require Import ZArith Lia Ascii.
From stdpp Require Import base option list strings gmap fin_maps pretty.

Local Open Scope string_scope.
Local Open Scope list_scope.
Set Warnings "-register-all".

(** ** Python values *)

Inductive JSON : Type :=
| JNull
| JBool (b : bool)
| JNum (n : Z)
| JStr (s : string)
| JArr (items : list JSON)
| JObj (fields : list (string * JSON)).

Inductive Exc : Type :=
| UltraClientUnauthorized
| UltraNoZonesExistException
| HTTPError (status : Z) (reason body : string)
| JSONDecodeError
| KeyError (key : JSON)
| IndexError
| TypeError
| AttributeError (attr : string).

Inductive Outcome (A : Type) : Type :=
| Ok (a : A)
| Raise (e : Exc)
| Diverge.

Arguments Ok {A} a.
Arguments Raise {A} e.
Arguments Diverge {A}.

#[export] Instance Outcome_ret : MRet Outcome := fun A a => Ok a.
#[export] Instance Outcome_bind : MBind Outcome := fun A B f m =>
  match m with
  | Ok a => f a
  | Raise e => Raise e
  | Diverge => Diverge
  end.

(** A dict with string keys is the list of its items in insertion order.
    [dict_get d k] is [d.get(k)]. *)
Fixpoint dict_get {A} (d : list (string * A)) (k : string) : option A :=
  match d with
  | [] => None
  | (k', v) :: d' => if String.eqb k' k then Some v else dict_get d' k
  end.

(** [d[k] = v]: replaces the value in place, or appends a new item. *)
Fixpoint dict_set {A} (d : list (string * A)) (k : string) (v : A)
  : list (string * A) :=
  match d with
  | [] => [(k, v)]
  | (k', v') :: d' =>
      if String.eqb k' k then (k', v) :: d' else (k', v') :: dict_set d' k v
  end.

(** [sub in s] on two strings. *)
Fixpoint str_contains (sub s : string) : bool :=
  String.prefix sub s ||
  match s with
  | EmptyString => false
  | String _ s' => str_contains sub s'
  end.

Fixpoint str_chars (s : string) : list JSON :=
  match s with
  | EmptyString => []
  | String c s' => JStr (String c EmptyString) :: str_chars s'
  end.

(** [len(x)] *)
Definition py_len (x : JSON) : Outcome nat :=
  match x with
  | JStr s => Ok (String.length s)
  | JArr l => Ok (length l)
  | JObj d => Ok (length d)
  | _ => Raise TypeError
  end.

(** [x[i]] for an integer literal [i >= 0].  A decoded object has string
    keys only, so an integer key is never found. *)
Definition py_getitem_int (x : JSON) (i : nat) : Outcome JSON :=
  match x with
  | JArr l => match l !! i with Some v => Ok v | None => Raise IndexError end
  | JStr s => match str_chars s !! i with
              | Some v => Ok v
              | None => Raise IndexError
              end
  | JObj _ => Raise (KeyError (JNum (Z.of_nat i)))
  | _ => Raise TypeError
  end.

(** [x[k]] for a string literal [k]. *)
Definition py_getitem (x : JSON) (k : string) : Outcome JSON :=
  match x with
  | JObj d => match dict_get d k with
              | Some v => Ok v
              | None => Raise (KeyError (JStr k))
              end
  | _ => Raise TypeError
  end.

(** [x == s] for a string [s]. *)
Definition py_eq_str (x : JSON) (s : string) : bool :=
  match x with
  | JStr s' => String.eqb s' s
  | _ => false
  end.

(** [x == n] for an integer [n]; Python's [True] and [False] are the
    integers 1 and 0. *)
Definition py_eq_int (x : JSON) (n : Z) : bool :=
  match x with
  | JNum m => (m =? n)%Z
  | JBool b => ((if b then 1 else 0) =? n)%Z
  | _ => false
  end.

(** [k in x] for a string [k]. *)
Definition py_contains (k : string) (x : JSON) : Outcome bool :=
  match x with
  | JObj d => Ok (bool_decide (is_Some (dict_get d k)))
  | JArr l => Ok (existsb (fun v => py_eq_str v k) l)
  | JStr s => Ok (str_contains k s)
  | _ => Raise TypeError
  end.

(** What [list.extend(x)] and [for v in x] iterate over. *)
Definition py_iter (x : JSON) : Outcome (list JSON) :=
  match x with
  | JArr l => Ok l
  | JObj d => Ok (map (fun kv => JStr kv.1) d)
  | JStr s => Ok (str_chars s)
  | _ => Raise TypeError
  end.

Definition py_int (x : JSON) : Outcome Z :=
  match x with
  | JNum n => Ok n
  | JBool b => Ok (if b then 1 else 0)%Z
  | _ => Raise TypeError
  end.

(** [x + y] and [x < y], on integers; on other operands the embedding
    raises [TypeError]. *)
Definition py_add (x y : JSON) : Outcome JSON :=
  a ← py_int x; b ← py_int y; Ok (JNum (a + b)).

Definition py_lt (x y : JSON) : Outcome bool :=
  a ← py_int x; b ← py_int y; Ok (a <? b)%Z.

(** ** The session and the provider object *)

Record Request : Type := mkRequest {
  method : string;
  path : string;
  params : option (list (string * JSON));
  data : option (list (string * string));
  json : option JSON
}.

Record Response : Type := mkResponse {
  status_code : Z;
  reason : string;
  text : string;
  json_body : option JSON
}.

Definition Server : Type := list Request -> Response.

Record Provider : Type := mkProvider {
  sent : list Request;
  _account : string;
  _zones : option (list JSON);
  _zone_records : gmap string JSON
}.

Definition M (A : Type) : Type := Provider -> Outcome A * Provider.

#[export] Instance M_ret : MRet M := fun A a self => (Ok a, self).
#[export] Instance M_bind : MBind M := fun A B f m self =>
  match m self with
  | (Ok a, self') => f a self'
  | (Raise e, self') => (Raise e, self')
  | (Diverge, self') => (Diverge, self')
  end.

(** An expression that may raise, run inside a method. *)
Definition lift {A} (o : Outcome A) : M A := fun self => (o, self).

Definition gets {A} (f : Provider -> A) : M A := fun self => (Ok (f self), self).

Definition modify (f : Provider -> Provider) : M unit :=
  fun self => (Ok tt, f self).

Definition ZONE_REQUEST_LIMIT : Z := 1000.
Definition RRSET_REQUEST_LIMIT : Z := 1000.

Definition RECORDS_TO_TYPE : list (string * string) :=
  [ ("A (1)", "A");
    ("AAAA (28)", "AAAA");
    ("APEXALIAS (65282)", "ALIAS");
    ("CAA (257)", "CAA");
    ("CNAME (5)", "CNAME");
    ("MX (15)", "MX");
    ("NS (2)", "NS");
    ("PTR (12)", "PTR");
    ("SRV (33)", "SRV");
    ("TXT (16)", "TXT") ].

Definition TYPE_TO_RECORDS : list (string * string) :=
  map (fun kv => (kv.2, kv.1)) RECORDS_TO_TYPE.

Definition SUPPORTS : list string := map fst TYPE_TO_RECORDS.

(** [requests.Response.raise_for_status]: an [HTTPError] for 4xx and 5xx. *)
Definition raise_for_status (resp : Response) : Outcome unit :=
  if ((400 <=? status_code resp) && (status_code resp <? 600))%Z
  then Raise (HTTPError (status_code resp) (reason resp) (text resp))
  else Ok tt.

Section Transport.

Variable server : Server.

(** The [errorCode == 70002] test of [_request], with Python's
    short-circuit [and]. *)
Definition no_zones_body (resp : Response) (payload : JSON) : Outcome bool :=
  if (status_code resp =? 404)%Z then
    n ← py_len payload;
    if Nat.eqb n 1 then
      first ← py_getitem_int payload 0;
      code ← py_getitem first "errorCode";
      Ok (py_eq_int code 70002)
    else Ok false
  else Ok false.

Definition _request (method path : string)
    (params : option (list (string * JSON)))
    (data : option (list (string * string)))
    (json : option JSON) (json_response : bool) : M JSON :=
  fun self =>
    let req := mkRequest method path params data json in
    let hist := sent self ++ [req] in
    let resp := server hist in
    let self' := mkProvider hist (_account self) (_zones self)
                            (_zone_records self) in
    if (status_code resp =? 401)%Z then (Raise UltraClientUnauthorized, self')
    else
      let decoded : Outcome JSON :=
        if json_response then
          match json_body resp with
          | None => Raise JSONDecodeError
          | Some payload =>
              nz ← no_zones_body resp payload;
              if nz : bool then Raise UltraNoZonesExistException
              else Ok payload
          end
        else Ok (JStr (text resp)) in
      (payload ← decoded; _ ← raise_for_status resp; Ok payload, self').

Definition _get (path : string) (params : option (list (string * JSON)))
  : M JSON :=
  _request "GET" path params None None true.

Definition _post (path : string) (json : option JSON) : M JSON :=
  _request "POST" path None None json true.

Definition _put (path : string) (json : option JSON) : M JSON :=
  _request "PUT" path None None json true.

Definition _delete (path : string) (json_response : bool) : M JSON :=
  _request "DELETE" path None None None json_response.

End Transport.

(** ** Zone lister and record fetcher *)

Definition set_zones (zs : option (list JSON)) (self : Provider) : Provider :=
  mkProvider (sent self) (_account self) zs (_zone_records self).

Definition set_zone_records (m : gmap string JSON) (self : Provider)
  : Provider :=
  mkProvider (sent self) (_account self) (_zones self) m.

(** [name in zones], for a Python [str] and the cached list of names. *)
Definition name_in (name : string) (zones : list JSON) : bool :=
  existsb (fun z => py_eq_str z name) zones.

Module Zone.
Record t : Type := mk { name : string }.
End Zone.

Section Fetch.

Variable server : Server.
Variable fuel : nat.

(** What one page of [/v3/zones] does to the loop variables: the zones
    accumulated so far, and the cursor to continue with, if any. *)
Definition zones_page (resp : JSON) (zones : list JSON)
  : Outcome (list JSON * option JSON) :=
  zs ← py_getitem resp "zones";
  new ← py_iter zs;
  info ← py_getitem resp "cursorInfo";
  more ← py_contains "next" info;
  if more : bool then
    info' ← py_getitem resp "cursorInfo";
    next ← py_getitem info' "next";
    Ok (zones ++ new, Some next)
  else Ok (zones ++ new, None).

(** The [while paging] loop of [zones]. *)
Fixpoint zones_paging (n : nat) (data : list (string * JSON))
    (zones : list JSON) (self : Provider) : Outcome (list JSON) * Provider :=
  match n with
  | O => (Diverge, self)
  | S n' =>
      match _get server "/v3/zones" (Some data) self with
      | (Raise UltraNoZonesExistException, self') => (Ok zones, self')
      | (Raise e, self') => (Raise e, self')
      | (Diverge, self') => (Diverge, self')
      | (Ok resp, self') =>
          match zones_page resp zones with
          | Ok (zones', Some next) =>
              zones_paging n' (dict_set data "cursor" next) zones' self'
          | Ok (zones', None) => (Ok zones', self')
          | Raise e => (Raise e, self')
          | Diverge => (Diverge, self')
          end
      end
  end.

(** [z['properties']['name']] *)
Definition properties_name (z : JSON) : Outcome JSON :=
  p ← py_getitem z "properties"; py_getitem p "name".

Definition zones : M (list JSON) := fun self =>
  match _zones self with
  | Some zs => (Ok zs, self)
  | None =>
      let data := [("limit", JNum ZONE_REQUEST_LIMIT);
                   ("q", JStr "zone_type:PRIMARY")] in
      match zones_paging fuel data [] self with
      | (Ok zones, self') =>
          match mapM properties_name zones with
          | Ok names => (Ok names, set_zones (Some names) self')
          | Raise e => (Raise e, self')
          | Diverge => (Diverge, self')
          end
      | (Raise e, self') => (Raise e, self')
      | (Diverge, self') => (Diverge, self')
      end
  end.

Definition list_zones : M (list JSON) := zones.

(** What one page of rrsets does to the loop variables of [zone_records]. *)
Definition rrsets_page (resp offset : JSON) (records : list JSON)
  : Outcome (list JSON * option JSON) :=
  rr ← py_getitem resp "rrSets";
  new ← py_iter rr;
  info ← py_getitem resp "resultInfo";
  o ← py_getitem info "offset";
  rc ← py_getitem info "returnedCount";
  reached ← py_add o rc;
  total ← py_getitem info "totalCount";
  more ← py_lt reached total;
  if more : bool then
    rc' ← py_getitem info "returnedCount";
    offset' ← py_add offset rc';
    Ok (records ++ new, Some offset')
  else Ok (records ++ new, None).

Fixpoint rrsets_paging (n : nat) (path : string) (offset : JSON)
    (records : list JSON) (self : Provider) : Outcome (list JSON) * Provider :=
  match n with
  | O => (Diverge, self)
  | S n' =>
      let params := [("offset", offset); ("limit", JNum RRSET_REQUEST_LIMIT)] in
      match _get server path (Some params) self with
      | (Ok resp, self') =>
          match rrsets_page resp offset records with
          | Ok (records', Some offset') =>
              rrsets_paging n' path offset' records' self'
          | Ok (records', None) => (Ok records', self')
          | Raise e => (Raise e, self')
          | Diverge => (Diverge, self')
          end
      | (Raise e, self') => (Raise e, self')
      | (Diverge, self') => (Diverge, self')
      end
  end.

Definition zone_records (zone : Zone.t) : M JSON := fun self =>
  match _zone_records self !! Zone.name zone with
  | Some cached => (Ok cached, self)
  | None =>
      match zones self with
      | (Ok zs, self1) =>
          if negb (name_in (Zone.name zone) zs) then (Ok (JArr []), self1)
          else
            let path := "/v2/zones/" +:+ Zone.name zone +:+ "/rrsets" in
            match rrsets_paging fuel path (JNum 0) [] self1 with
            | (Ok records, self2) =>
                (Ok (JArr records),
                 set_zone_records
                   (<[Zone.name zone := JArr records]> (_zone_records self2))
                   self2)
            | (Raise e, self2) => (Raise e, self2)
            | (Diverge, self2) => (Diverge, self2)
            end
      | (Raise e, self1) => (Raise e, self1)
      | (Diverge, self1) => (Diverge, self1)
      end
  end.

End Fetch.

(** ** Record codec *)

(** [s.replace(old, new)]: the occurrences of [old] are found from the left
    and do not overlap; [skip] counts the characters of the occurrence just
    replaced that are still to be passed over. *)
Fixpoint replace_from (old new : string) (skip : nat) (s : string) : string :=
  match s with
  | EmptyString => EmptyString
  | String c s' =>
      match skip with
      | S k => replace_from old new k s'
      | O =>
          if String.prefix old s
          then new +:+ replace_from old new (String.length old - 1) s'
          else String c (replace_from old new 0 s')
      end
  end.

Fixpoint str_interleave (new s : string) : string :=
  match s with
  | EmptyString => EmptyString
  | String c s' => String c (new +:+ str_interleave new s')
  end.

Definition str_replace (old new s : string) : string :=
  match old with
  | EmptyString => new +:+ str_interleave new s
  | _ => replace_from old new 0 s
  end.

(** [text[n:]] *)
Fixpoint str_drop (n : nat) (s : string) : string :=
  match n, s with
  | O, _ => s
  | S n', String _ s' => str_drop n' s'
  | S _, EmptyString => EmptyString
  end.

Definition _remove_prefix (text prefix : string) : string :=
  if String.prefix prefix text then str_drop (String.length prefix) text
  else text.

(** The value of [x.replace(...)] for an element [x] of a vendor [rdata]
    list: only a [str] has the method. *)
Definition py_str_replace (old new : string) (x : JSON) : Outcome JSON :=
  match x with
  | JStr s => Ok (JStr (str_replace old new s))
  | _ => Raise (AttributeError "replace")
  end.

Definition _data_for_multiple (_type : string) (records : JSON)
  : Outcome JSON :=
  ttl ← py_getitem records "ttl";
  rdata ← py_getitem records "rdata";
  Ok (JObj [("ttl", ttl); ("type", JStr _type); ("values", rdata)]).

Definition _data_for_A := _data_for_multiple.
Definition _data_for_SPF := _data_for_multiple.
Definition _data_for_NS := _data_for_multiple.
Definition _data_for_AAAA := _data_for_multiple.

Definition _data_for_TXT (_type : string) (records : JSON) : Outcome JSON :=
  ttl ← py_getitem records "ttl";
  rdata ← py_getitem records "rdata";
  rs ← py_iter rdata;
  values ← mapM (py_str_replace ";" "\;") rs;
  Ok (JObj [("ttl", ttl); ("type", JStr _type); ("values", JArr values)]).

Definition _data_for_single (_type : string) (record : JSON) : Outcome JSON :=
  ttl ← py_getitem record "ttl";
  rdata ← py_getitem record "rdata";
  value ← py_getitem_int rdata 0;
  Ok (JObj [("type", JStr _type); ("ttl", ttl); ("value", value)]).

Definition _data_for_PTR := _data_for_single.
Definition _data_for_CNAME := _data_for_single.
Definition _data_for_ALIAS := _data_for_single.

(** *** Canonical records (octoDNS)

    The record classes belong to octoDNS; the provider reads their
    attributes [name], [_type], [ttl], [fqdn], [zone] and [values] or
    [value].  The class of a record fixes the shape of its values: a list
    of strings (A, AAAA, NS, SPF, TXT), one string (CNAME, PTR, ALIAS), or
    a list of structured values (SRV, CAA, MX).  A handler applied to a
    record of another shape fails on the attribute it reads, which the
    embedding renders as [AttributeError]. *)

Record SrvValue : Type := mkSrv {
  priority : Z; weight : Z; port : Z; target : string }.
Record CaaValue : Type := mkCaa {
  flags : Z; tag : string; caa_value : string }.
Record MxValue : Type := mkMx {
  preference : Z; exchange : string }.

Inductive RData : Type :=
| Values (vs : list string)
| Value (v : string)
| SrvValues (vs : list SrvValue)
| CaaValues (vs : list CaaValue)
| MxValues (vs : list MxValue).

Record DnsRecord : Type := mkRecord {
  name : string;
  _type : string;
  ttl : Z;
  fqdn : string;
  zone : Zone.t;
  rdata : RData
}.

(** [record.values], where the handler takes the values for strings. *)
Definition values (record : DnsRecord) : Outcome (list string) :=
  match rdata record with
  | Values vs => Ok vs
  | _ => Raise (AttributeError "values")
  end.

(** [record.value] *)
Definition value (record : DnsRecord) : Outcome string :=
  match rdata record with
  | Value v => Ok v
  | _ => Raise (AttributeError "value")
  end.

Definition strs (l : list string) : JSON := JArr (map JStr l).

Definition _contents_for_multiple_resource_distribution (record : DnsRecord)
  : Outcome JSON :=
  vs ← values record;
  if (1 <? length vs)%nat then
    Ok (JObj [("ttl", JNum (ttl record));
              ("rdata", strs vs);
              ("profile",
               JObj [("@context",
                      JStr "http://schemas.ultradns.com/RDPool.jsonschema");
                     ("order", JStr "FIXED");
                     ("description", JStr (fqdn record))])])
  else Ok (JObj [("ttl", JNum (ttl record)); ("rdata", strs vs)]).

Definition _contents_for_A := _contents_for_multiple_resource_distribution.
Definition _contents_for_AAAA := _contents_for_multiple_resource_distribution.

Definition _contents_for_multiple (record : DnsRecord) : Outcome JSON :=
  vs ← values record;
  Ok (JObj [("ttl", JNum (ttl record)); ("rdata", strs vs)]).

Definition _contents_for_NS := _contents_for_multiple.
Definition _contents_for_SPF := _contents_for_multiple.

Definition _contents_for_TXT (record : DnsRecord) : Outcome JSON :=
  vs ← values record;
  Ok (JObj [("ttl", JNum (ttl record));
            ("rdata", strs (map (str_replace "\;" ";") vs))]).

Definition _contents_for_CNAME (record : DnsRecord) : Outcome JSON :=
  v ← value record;
  Ok (JObj [("ttl", JNum (ttl record)); ("rdata", strs [v])]).

Definition _contents_for_PTR := _contents_for_CNAME.
Definition _contents_for_ALIAS := _contents_for_CNAME.

Definition _contents_for_SRV (record : DnsRecord) : Outcome JSON :=
  match rdata record with
  | SrvValues vs =>
      Ok (JObj [("ttl", JNum (ttl record));
                ("rdata",
                 strs (map (fun x => pretty (priority x) +:+ " " +:+
                                     pretty (weight x) +:+ " " +:+
                                     pretty (port x) +:+ " " +:+ target x)
                           vs))])
  | Value _ => Raise (AttributeError "values")
  | _ => Raise (AttributeError "priority")
  end.

Definition _contents_for_CAA (record : DnsRecord) : Outcome JSON :=
  match rdata record with
  | CaaValues vs =>
      Ok (JObj [("ttl", JNum (ttl record));
                ("rdata",
                 strs (map (fun x => pretty (flags x) +:+ " " +:+ tag x +:+
                                     " " +:+ caa_value x) vs))])
  | Value _ => Raise (AttributeError "values")
  | _ => Raise (AttributeError "flags")
  end.

Definition _contents_for_MX (record : DnsRecord) : Outcome JSON :=
  match rdata record with
  | MxValues vs =>
      Ok (JObj [("ttl", JNum (ttl record));
                ("rdata",
                 strs (map (fun x => pretty (preference x) +:+ " " +:+
                                     exchange x) vs))])
  | Value _ => Raise (AttributeError "values")
  | _ => Raise (AttributeError "preference")
  end.

(** [getattr(self, f'_contents_for_{record._type}')] *)
Definition contents_for_table : list (string * (DnsRecord -> Outcome JSON)) :=
  [ ("A", _contents_for_A); ("AAAA", _contents_for_AAAA);
    ("NS", _contents_for_NS); ("SPF", _contents_for_SPF);
    ("TXT", _contents_for_TXT); ("CNAME", _contents_for_CNAME);
    ("PTR", _contents_for_PTR); ("ALIAS", _contents_for_ALIAS);
    ("SRV", _contents_for_SRV); ("CAA", _contents_for_CAA);
    ("MX", _contents_for_MX) ].

Definition getattr {A} (table : list (string * A)) (attr : string)
  : option A :=
  dict_get table attr.

Definition _gen_data (record : DnsRecord) : Outcome (string * JSON) :=
  let zone_name := _remove_prefix (fqdn record) (name record +:+ ".") in
  let record_type :=
    if String.eqb (_type record) "ALIAS" then "APEXALIAS" else _type record in
  let path := "/v2/zones/" +:+ zone_name +:+ "/rrsets/" +:+ record_type
              +:+ "/" +:+ fqdn record in
  match getattr contents_for_table (_type record) with
  | Some contents_for => contents ← contents_for record; Ok (path, contents)
  | None => Raise (AttributeError ("_contents_for_" +:+ _type record))
  end.

(** ** Populate: grouping the vendor's rrsets *)

(** [self.RECORDS_TO_TYPE[k]] for a value [k] taken from a vendor rrset:
    a list or an object cannot be a key at all. *)
Definition records_to_type (k : JSON) : Outcome string :=
  match k with
  | JStr s => match dict_get RECORDS_TO_TYPE s with
              | Some t => Ok t
              | None => Raise (KeyError k)
              end
  | JArr _ | JObj _ => Raise TypeError
  | _ => Raise (KeyError k)
  end.

(** [x.get(k, default)] *)
Definition py_get (x : JSON) (k : string) (default : JSON) : Outcome JSON :=
  match x with
  | JObj d => Ok (match dict_get d k with Some v => v | None => default end)
  | _ => Raise (AttributeError "get")
  end.

(** Truth value of a container, as tested by [if records:]. *)
Definition py_truthy (x : JSON) : bool :=
  match x with
  | JNull => false
  | JBool b => b
  | JNum n => negb (n =? 0)%Z
  | JStr s => negb (String.eqb s EmptyString)
  | JArr l => negb (Nat.eqb (length l) 0)
  | JObj d => negb (Nat.eqb (length d) 0)
  end.

Definition DirPool : string :=
  "http://schemas.ultradns.com/DirPool.jsonschema".

Section Populate.

Variable server : Server.
Variable fuel : nat.

(** [zone.hostname_from_fqdn] belongs to octoDNS. *)
Variable hostname_from_fqdn : Zone.t -> JSON -> Outcome string.

(** [values[name][_type] = record], on the nested dicts of [populate]. *)
Definition values_set (values : list (string * list (string * JSON)))
    (name _type : string) (record : JSON)
  : list (string * list (string * JSON)) :=
  dict_set values name
           (dict_set (match dict_get values name with Some d => d | None => [] end) _type record).

(** One turn of the first loop of [populate]: the entry is skipped when it
    is the SOA, a directional pool, or of an rrtype that is not in the
    table (the [KeyError] is caught), and recorded otherwise. *)
Definition populate_step (zone : Zone.t)
    (values : list (string * list (string * JSON))) (record : JSON)
  : Outcome (list (string * list (string * JSON))) :=
  owner ← py_getitem record "ownerName";
  name ← hostname_from_fqdn zone owner;
  rrtype ← py_getitem record "rrtype";
  if py_eq_str rrtype "SOA (6)" then Ok values
  else
    pool ← (if py_eq_str rrtype "A (1)" then
              profile ← py_get record "profile" (JObj []);
              context ← py_get profile "@context" JNull;
              Ok (py_eq_str context DirPool)
            else Ok false);
    if pool : bool then Ok values
    else
      match records_to_type rrtype with
      | Ok _type => Ok (values_set values name _type record)
      | Raise (KeyError _) => Ok values
      | Raise e => Raise e
      | Diverge => Diverge
      end.

Fixpoint populate_loop (zone : Zone.t)
    (values : list (string * list (string * JSON))) (records : list JSON)
  : Outcome (list (string * list (string * JSON))) :=
  match records with
  | [] => Ok values
  | record :: records' =>
      values' ← populate_step zone values record;
      populate_loop zone values' records'
  end.

(** [populate] up to the grouped rrsets: [exists] and the rrset kept for
    each name and type.  Building the records from them and adding them to
    the zone is octoDNS's part. *)
Definition populate_values (zone : Zone.t)
  : M (bool * list (string * list (string * JSON))) :=
  records ← zone_records server fuel zone;
  if py_truthy records then
    rs ← lift (py_iter records);
    values ← lift (populate_loop zone [] rs);
    mret (true, values)
  else mret (false, []).

End Populate.

(** ** Applier *)

(** The change classes of octoDNS.  [Create(new)], [Update(existing, new)]
    and [Delete(existing)]; [change.record] is [new] when there is one and
    [existing] otherwise. *)
Inductive Change : Type :=
| Create (new : DnsRecord)
| Update (existing : option DnsRecord) (new : DnsRecord)
| Delete (existing : DnsRecord).

Definition record (change : Change) : DnsRecord :=
  match change with
  | Create new => new
  | Update _ new => new
  | Delete existing => existing
  end.

Definition is_Create (change : Change) : bool :=
  match change with
  | Create _ => true
  | _ => false
  end.

Record Plan : Type := mkPlan {
  desired : Zone.t;
  changes : list Change
}.

(** The condition under which [_force_root_ns_update] replaces a change. *)
Definition root_ns_create (change : Change) : bool :=
  String.eqb (name (record change)) EmptyString
  && String.eqb (_type (record change)) "NS"
  && is_Create change.

(** The list is rewritten in place, slot by slot; the result is the list
    after the loop. *)
Definition _force_root_ns_update (changes : list Change) : list Change :=
  map (fun change =>
         if root_ns_create change then Update None (record change)
         else change)
      changes.

Section Apply.

Variable server : Server.
Variable fuel : nat.

Definition _apply_Create (new : DnsRecord) : M unit :=
  '(path, content) ← lift (_gen_data new);
  _ ← _post server path (Some content);
  mret tt.

Definition _apply_Update (new : DnsRecord) : M unit :=
  '(path, content) ← lift (_gen_data new);
  _ ← _put server path (Some content);
  mret tt.

(** Whether the [if] of the scan in [_apply_Delete] holds for [record]. *)
Definition delete_match (existing : DnsRecord) (record : JSON)
  : Outcome bool :=
  owner ← py_getitem record "ownerName";
  if py_eq_str owner (fqdn existing) then
    rrtype ← py_getitem record "rrtype";
    t ← records_to_type rrtype;
    Ok (String.eqb (_type existing) t)
  else Ok false.

Definition delete_path (existing : DnsRecord) : string :=
  let zone_name := _remove_prefix (fqdn existing) (name existing +:+ ".") in
  let existing_type :=
    if String.eqb (_type existing) "ALIAS" then "APEXALIAS"
    else _type existing in
  ("/v2/zones/" +:+ zone_name +:+ "/rrsets/" +:+ existing_type +:+ "/")
  +:+ fqdn existing.

(** The [for record in ...] loop of [_apply_Delete]. *)
Fixpoint delete_scan (existing : DnsRecord) (records : list JSON)
  : M unit :=
  match records with
  | [] => mret tt
  | record :: records' =>
      rrtype ← lift (py_getitem record "rrtype");
      if py_eq_str rrtype "SOA (6)" then delete_scan existing records'
      else
        hit ← lift (delete_match existing record);
        if hit : bool then
          _ ← _delete server (delete_path existing) false;
          delete_scan existing records'
        else delete_scan existing records'
  end.

Definition _apply_Delete (existing : DnsRecord) : M unit :=
  snapshot ← zone_records server fuel (zone existing);
  records ← lift (py_iter snapshot);
  delete_scan existing records.

(** [getattr(self, f'_apply_{class_name}')(change)] *)
Definition apply_change (change : Change) : M unit :=
  match change with
  | Create new => _apply_Create new
  | Update _ new => _apply_Update new
  | Delete existing => _apply_Delete existing
  end.

Fixpoint apply_changes (changes : list Change) : M unit :=
  match changes with
  | [] => mret tt
  | change :: changes' => _ ← apply_change change; apply_changes changes'
  end.

Definition zone_create_body (name account : string) : JSON :=
  JObj [("properties",
         JObj [("name", JStr name);
               ("accountName", JStr account);
               ("type", JStr "PRIMARY")]);
        ("primaryCreateInfo", JObj [("createType", JStr "NEW")])].

(** [self.zones.append(name)]: the property returns the cached list
    itself, which is extended in place. *)
Definition zones_append (name : string) : M unit :=
  zs ← zones server fuel;
  modify (set_zones (Some (zs ++ [JStr name]))).

(** [self._zone_records[name] = {}] *)
Definition seed_zone_records (name : string) : M unit :=
  modify (fun self =>
            set_zone_records (<[name := JObj []]> (_zone_records self)) self).

(** [self._zone_records.pop(name, None)] *)
Definition pop_zone_records (name : string) : M unit :=
  modify (fun self =>
            set_zone_records (delete name (_zone_records self)) self).

Definition _apply (plan : Plan) : M unit :=
  let name := Zone.name (desired plan) in
  zs ← zones server fuel;
  changes ←
    (if negb (name_in name zs) then
       account ← gets _account;
       _ ← _post server "/v2/zones" (Some (zone_create_body name account));
       _ ← zones_append name;
       _ ← seed_zone_records name;
       mret (_force_root_ns_update (changes plan))
     else mret (changes plan));
  _ ← apply_changes changes;
  pop_zone_records name.

End Apply.

(** ** Decoders of the structured types

    A character of a [string] is a code point below 256. *)

(** [c.isspace()] on such a character: the separators of [str.split()]. *)
Definition is_space (c : ascii) : bool :=
  existsb (Nat.eqb (nat_of_ascii c))
          [9; 10; 11; 12; 13; 28; 29; 30; 31; 32; 133; 160]%nat.

(** [s.split()]: the maximal runs of characters that are not whitespace.
    [word] is the run being read. *)
Fixpoint split_from (word s : string) : list string :=
  match s with
  | EmptyString =>
      match word with
      | EmptyString => []
      | _ => [word]
      end
  | String c s' =>
      if is_space c then
        match word with
        | EmptyString => split_from EmptyString s'
        | _ => word :: split_from EmptyString s'
        end
      else split_from (word +:+ String c EmptyString) s'
  end.

Definition str_split (s : string) : list string := split_from EmptyString s.

Definition quote : ascii :=
  Ascii false true false false false true false false.

Fixpoint str_lstrip (c : ascii) (s : string) : string :=
  match s with
  | EmptyString => EmptyString
  | String c' s' => if Ascii.eqb c' c then str_lstrip c s' else s
  end.

Fixpoint str_rstrip (c : ascii) (s : string) : string :=
  match s with
  | EmptyString => EmptyString
  | String c' s' =>
      match str_rstrip c s' with
      | EmptyString =>
          if Ascii.eqb c' c then EmptyString else String c' EmptyString
      | rest => String c' rest
      end
  end.

(** [s.strip(c)] for a single character [c]. *)
Definition str_strip (c : ascii) (s : string) : string :=
  str_rstrip c (str_lstrip c s).

(** [x.split()[i]] for an element [x] of a vendor [rdata] list. *)
Definition py_field (x : JSON) (i : nat) : Outcome string :=
  match x with
  | JStr s =>
      match str_split s !! i with
      | Some w => Ok w
      | None => Raise IndexError
      end
  | _ => Raise (AttributeError "split")
  end.

Definition caa_value_of (x : JSON) : Outcome JSON :=
  f0 ← py_field x 0;
  f1 ← py_field x 1;
  f2 ← py_field x 2;
  Ok (JObj [("flags", JStr f0); ("tag", JStr f1);
            ("value", JStr (str_strip quote f2))]).

Definition _data_for_CAA (_type : string) (records : JSON) : Outcome JSON :=
  ttl ← py_getitem records "ttl";
  rdata ← py_getitem records "rdata";
  xs ← py_iter rdata;
  values ← mapM caa_value_of xs;
  Ok (JObj [("type", JStr _type); ("ttl", ttl); ("values", JArr values)]).

Definition mx_value_of (x : JSON) : Outcome JSON :=
  f0 ← py_field x 0;
  f1 ← py_field x 1;
  Ok (JObj [("preference", JStr f0); ("exchange", JStr f1)]).

Definition _data_for_MX (_type : string) (records : JSON) : Outcome JSON :=
  ttl ← py_getitem records "ttl";
  rdata ← py_getitem records "rdata";
  xs ← py_iter rdata;
  values ← mapM mx_value_of xs;
  Ok (JObj [("type", JStr _type); ("ttl", ttl); ("values", JArr values)]).

Definition srv_value_of (x : JSON) : Outcome JSON :=
  f0 ← py_field x 0;
  f1 ← py_field x 1;
  f2 ← py_field x 2;
  f3 ← py_field x 3;
  Ok (JObj [("priority", JStr f0); ("weight", JStr f1);
            ("port", JStr f2); ("target", JStr f3)]).

Definition _data_for_SRV (_type : string) (records : JSON) : Outcome JSON :=
  ttl ← py_getitem records "ttl";
  rdata ← py_getitem records "rdata";
  xs ← py_iter rdata;
  values ← mapM srv_value_of xs;
  Ok (JObj [("type", JStr _type); ("ttl", ttl); ("values", JArr values)]).

(** [getattr(self, f'_data_for_{_type}')] *)
Definition data_for_table : list (string * (string -> JSON -> Outcome JSON)) :=
  [ ("A", _data_for_A); ("SPF", _data_for_SPF); ("NS", _data_for_NS);
    ("TXT", _data_for_TXT); ("AAAA", _data_for_AAAA);
    ("PTR", _data_for_PTR); ("CNAME", _data_for_CNAME);
    ("ALIAS", _data_for_ALIAS); ("CAA", _data_for_CAA);
    ("MX", _data_for_MX); ("SRV", _data_for_SRV) ].

(** [_record_for] up to the data it hands to [Record.new], which is
    octoDNS's. *)
Definition _record_for_data (_type : string) (records : JSON)
  : Outcome JSON :=
  match getattr data_for_table _type with
  | Some data_for => data_for _type records
  | None => Raise (AttributeError ("_data_for_" +:+ _type))
  end.

(** ** What the vendor is expected to answer

    These notions describe the vendor's side of a paging session; the
    theorems about the zone lister are stated with them. *)

(** The parameters of a request for a page of zones: the fixed limit and
    filter and, from the second page on, the cursor. *)
Definition zones_data (cursor : option JSON) : list (string * JSON) :=
  [("limit", JNum 1000); ("q", JStr "zone_type:PRIMARY")]
  ++ match cursor with
     | Some c => [("cursor", c)]
     | None => []
     end.

Definition zones_request (cursor : option JSON) : Request :=
  mkRequest "GET" "/v3/zones" (Some (zones_data cursor)) None None.

(** The provider after it has sent [reqs], its caches untouched. *)
Definition with_sent (reqs : list Request) (self : Provider) : Provider :=
  mkProvider (sent self ++ reqs) (_account self) (_zones self)
             (_zone_records self).

(** The requests of a session in which the pages [pages] (each with its
    [next] token) were followed by a last answer. *)
Definition zones_requests (pages : list (list JSON * JSON)) : list Request :=
  zones_request None :: map (fun p => zones_request (Some p.2)) pages.

(** A 200 answer carrying the zone entries [zs] and a cursor-info object in
    which [next] is [next]. *)
Definition is_zones_page (resp : Response) (zs : list JSON)
    (next : option JSON) : Prop :=
  status_code resp = 200%Z
  /\ exists o info,
       json_body resp = Some (JObj o)
       /\ dict_get o "zones" = Some (JArr zs)
       /\ dict_get o "cursorInfo" = Some (JObj info)
       /\ dict_get info "next" = next.

(** The 404 answer with the 70002 body. *)
Definition is_no_zones (resp : Response) : Prop :=
  status_code resp = 404%Z
  /\ exists o code,
       json_body resp = Some (JArr [JObj o])
       /\ dict_get o "errorCode" = Some code
       /\ py_eq_int code 70002 = true.

(** From the history [hist], and asked with the cursor [cursor] and then
    with each page's [next] token, the server answers with the pages
    [pages], each announcing a next one, and then with a last answer: a page
    [Some zs] without [next], or the "no zones" answer ([None]). *)
Fixpoint serves (server : Server) (hist : list Request) (cursor : option JSON)
    (pages : list (list JSON * JSON)) (final : option (list JSON)) : Prop :=
  let hist' := hist ++ [zones_request cursor] in
  match pages with
  | [] =>
      match final with
      | Some zs => is_zones_page (server hist') zs None
      | None => is_no_zones (server hist')
      end
  | (zs, next) :: pages' =>
      is_zones_page (server hist') zs (Some next)
      /\ serves server hist' (Some next) pages' final
  end.

(** The zone entries of such a session, in the order of the answers. *)
Definition served_zones (pages : list (list JSON * JSON))
    (final : option (list JSON)) : list JSON :=
  concat (map fst pages) ++ default [] final.

(** ** Relations between provider states *)

(** The relation between the state a method starts from and the state it
    leaves, for every method but the creation of a zone in [_apply]: the
    account is the same, the session has only sent further requests, a zone
    list once cached stays as it is, and the record cache is unchanged at
    the zone names in [keep]. *)
Definition frame (keep : string -> Prop) (self self' : Provider) : Prop :=
  _account self' = _account self
  /\ (exists reqs, sent self' = sent self ++ reqs)
  /\ (forall zs, _zones self = Some zs -> _zones self' = Some zs)
  /\ (forall k, keep k -> _zone_records self' !! k = _zone_records self !! k).

Definition everywhere : string -> Prop := fun _ => True.

(** A method whose final state is always related by [R] to the state it
    starts from, whatever its outcome. *)
Definition preserves {A} (R : Provider -> Provider -> Prop) (m : M A) : Prop :=
  forall self, R self (m self).2.

(** The record cache only has entries for zones of the cached zone list. *)
Definition cache_wf (self : Provider) : Prop :=
  forall k, is_Some (_zone_records self !! k) ->
            exists zs, _zones self = Some zs /\ name_in k zs = true.

(** The session has sent further requests, all of them satisfying [P]. *)
Definition only_sent (P : Request -> Prop) (self self' : Provider) : Prop :=
  exists reqs, sent self' = sent self ++ reqs /\ Forall P reqs.

Definition zone_list_request (r : Request) : Prop :=
  method r = "GET" /\ path r = "/v3/zones".

Definition keeps_cache_wf (self self' : Provider) : Prop :=
  cache_wf self -> cache_wf self'.


(** The provider right after a new zone [name] has been created: the name
    is appended to the zone list [zs] and the record cache holds the empty
    placeholder for it. *)
Definition seeded (name : string) (zs : list JSON) (self : Provider)
  : Provider :=
  mkProvider (sent self) (_account self) (Some (zs ++ [JStr name]))
             (<[name := JObj []]> (_zone_records self)).

(** The request that creates the zone [name]. *)
Definition zone_create_request (name account : string) : Request :=
  mkRequest "POST" "/v2/zones" None None
            (Some (zone_create_body name account)).

(** ** Notions used to state further properties *)

(** A non-empty string without whitespace: one field of [str.split()]. *)
Fixpoint no_space (s : string) : bool :=
  match s with
  | EmptyString => true
  | String c s' => negb (is_space c) && no_space s'
  end.

Definition is_word (s : string) : bool :=
  negb (String.eqb s EmptyString) && no_space s.

(** [' '.join(ws)] *)
Fixpoint str_join (ws : list string) : string :=
  match ws with
  | [] => EmptyString
  | [w] => w
  | w :: ws' => w +:+ " " +:+ str_join ws'
  end.

(** Every [;] of [s] comes right after a backslash; [escaped] tells whether
    the character before [s] is one. *)
Fixpoint escaped_from (escaped : bool) (s : string) : bool :=
  match s with
  | EmptyString => true
  | String c s' =>
      if Ascii.eqb c ";"%char then escaped && escaped_from false s'
      else escaped_from (Ascii.eqb c "\"%char) s'
  end.

Definition semicolons_escaped (s : string) : bool := escaped_from false s.

(** ** Values used in examples *)

(** The body of the vendor's answer when there is no data. *)
Definition empty_body : JSON :=
  JArr [JObj [("errorCode", JNum 70002);
              ("errorMessage", JStr "Data not found.")]].

(** The provider as [__init__] leaves it (the login request apart). *)
Definition initial (account : string) : Provider :=
  mkProvider [] account None ∅.

(** A zone entry of a [/v3/zones] page. *)
Definition zone_entry (name : string) : JSON :=
  JObj [("properties",
         JObj [("name", JStr name); ("accountName", JStr "testaccount");
               ("type", JStr "PRIMARY")])].

(** A vendor with two pages of zones: the first one announces the cursor
    [next-page], the second one ends the listing. *)
Definition two_pages : Server := fun hist =>
  match hist with
  | [_] =>
      mkResponse 200 "OK" EmptyString
        (Some (JObj [("cursorInfo", JObj [("next", JStr "next-page")]);
                     ("zones", JArr [zone_entry "testzone123.com."])]))
  | _ =>
      mkResponse 200 "OK" EmptyString
        (Some (JObj [("cursorInfo", JObj []);
                     ("zones", JArr [zone_entry "testzone456.com."])]))
  end.

(** A vendor whose account has no zones. *)
Definition no_zones : Server := fun _ =>
  mkResponse 404 "Not Found" EmptyString (Some empty_body).

(** A vendor rrset. *)
Definition rrset (owner rrtype : string) (ttl : Z) (rdata : list string)
  : JSON :=
  JObj [("ownerName", JStr owner); ("rrtype", JStr rrtype);
        ("ttl", JNum ttl); ("rdata", strs rdata)].

(** A provider that has listed the one zone [zone] and holds [snapshot] as
    its cached rrsets. *)
Definition cached (zone : string) (snapshot : list JSON) : Provider :=
  mkProvider [] "testacct" (Some [JStr zone]) {[ zone := JArr snapshot ]}.

(** A vendor that accepts every request. *)
Definition accepting : Server := fun _ =>
  mkResponse 200 "OK" "{}" (Some (JObj [])).

Definition a_record : DnsRecord :=
  mkRecord "a" "A" 300 "a.unit.tests." (Zone.mk "unit.tests.")
           (Values ["1.2.3.4"]).

(** The entry [entry] of a snapshot is the rrset of the record [existing]:
    same owner name, and an rrtype label that the table maps to the
    record's type. *)
Definition matches (existing : DnsRecord) (entry : JSON) : Prop :=
  py_getitem entry "ownerName" = Ok (JStr (fqdn existing))
  /\ exists label,
       py_getitem entry "rrtype" = Ok (JStr label)
       /\ dict_get RECORDS_TO_TYPE label = Some (_type existing).

(** Snapshots of the zone [unit.tests.] with a TLSA rrset, a type the
    provider does not support: at the owner name of [a_record] and no A
    rrset; at that owner name before the A rrset; at another owner name. *)
Definition soa_entry : JSON :=
  rrset "unit.tests." "SOA (6)" 86400
        ["ns.unit.tests. admin.unit.tests. 1 2 3 4 5"].

Definition a_entry : JSON := rrset "a.unit.tests." "A (1)" 300 ["1.2.3.4"].

Definition tlsa_entry (owner : string) : JSON :=
  rrset owner "TLSA (52)" 300 ["3 1 1 0123abcd"].

Definition snapshot_without_a : list JSON :=
  [soa_entry; tlsa_entry "a.unit.tests."].

Definition snapshot_tlsa_first : list JSON :=
  [soa_entry; tlsa_entry "a.unit.tests."; a_entry].

Definition snapshot_tlsa_elsewhere : list JSON :=
  [soa_entry; tlsa_entry "_443._tcp.unit.tests."; a_entry].


Definition root_ns : DnsRecord :=
  mkRecord EmptyString "NS" 3600 "unit.tests." (Zone.mk "unit.tests.")
           (Values ["6.2.3.4."; "7.2.3.4."]).

(** A plan for [unit.tests.] that creates the apex NS record and deletes
    the A record. *)
Definition sample_plan : Plan :=
  mkPlan (Zone.mk "unit.tests.") [Create root_ns; Delete a_record].

(** The scan of [_apply_Delete] goes past the entry [entry] without a
    request and without an error: it is the SOA, or it has another owner
    name, or its rrtype label is mapped to another type than the record's. *)
Definition passed_over (existing : DnsRecord) (entry : JSON) : Prop :=
  exists label owner,
    py_getitem entry "rrtype" = Ok (JStr label)
    /\ py_getitem entry "ownerName" = Ok owner
    /\ (label = "SOA (6)"
        \/ py_eq_str owner (fqdn existing) = false
        \/ exists t, dict_get RECORDS_TO_TYPE label = Some t
                     /\ t <> _type existing).

Definition mx_record : DnsRecord :=
  mkRecord "mx" "MX" 300 "mx.unit.tests." (Zone.mk "unit.tests.")
           (MxValues [mkMx 10 "smtp-4.unit.tests."; mkMx 20 "smtp-2.unit.tests."]).

Definition srv_record : DnsRecord :=
  mkRecord "_srv._tcp" "SRV" 600 "_srv._tcp.unit.tests."
           (Zone.mk "unit.tests.")
           (SrvValues [mkSrv 10 20 30 "foo-1.unit.tests."]).

Definition caa_record : DnsRecord :=
  mkRecord EmptyString "CAA" 3600 "unit.tests." (Zone.mk "unit.tests.")
           (CaaValues [mkCaa 0 "issue" "ca.unit.tests"]).

(** [record.fqdn] as octoDNS computes it from the name and the zone. *)
Definition fqdn_of (name zone_name : string) : string :=
  match name with
  | EmptyString => zone_name
  | _ => name +:+ "." +:+ zone_name
  end.

(** The type as it appears in an rrset path. *)
Definition wire_type (_type : string) : string :=
  if String.eqb _type "ALIAS" then "APEXALIAS" else _type.

Definition rrset_path (zone_name _type fqdn : string) : string :=
  "/v2/zones/" +:+ zone_name +:+ "/rrsets/" +:+ wire_type _type
  +:+ "/" +:+ fqdn.

Definition cname_record : DnsRecord :=
  mkRecord "cname" "CNAME" 300 "cname.unit.tests." (Zone.mk "unit.tests.")
           (Value "unit.tests.").

(** A status that [raise_for_status] turns into the HTTP error and that
    [_request] does not treat specially. *)
Definition is_http_error (resp : Response) : Prop :=
  (400 <= status_code resp < 600)%Z
  /\ status_code resp <> 401%Z /\ status_code resp <> 404%Z.

(** As [serves], but the last answer is the response [last]. *)
Fixpoint serves_then (server : Server) (hist : list Request)
    (cursor : option JSON) (pages : list (list JSON * JSON))
    (last : Response) : Prop :=
  let hist' := hist ++ [zones_request cursor] in
  match pages with
  | [] => server hist' = last
  | (zs, next) :: pages' =>
      is_zones_page (server hist') zs (Some next)
      /\ serves_then server hist' (Some next) pages' last
  end.

(** A vendor that answers every zone listing request with a bad-request
    error. *)
Definition bad_request : Server := fun _ =>
  mkResponse 400 "Bad Request" "{}"
             (Some (JObj [("errorCode", JNum 60004);
                          ("errorMessage",
                           JStr "Authorization Header required")])).

(** A vendor all of whose pages announce a further one. *)
Definition endless : Server := fun _ =>
  mkResponse 200 "OK" EmptyString
    (Some (JObj [("cursorInfo", JObj [("next", JStr "more")]);
                 ("zones", JArr [])])).

(** An outcome other than the "no zones" exception. *)
Definition not_no_zones {A} (o : Outcome A) : Prop :=
  o <> Raise UltraNoZonesExistException.

(** The request for the rrsets of a zone from the offset [offset]. *)
Definition rrsets_request (zone_name : string) (offset : Z) : Request :=
  mkRequest "GET" ("/v2/zones/" +:+ zone_name +:+ "/rrsets")
            (Some [("offset", JNum offset); ("limit", JNum 1000)])
            None None.

(** A page of rrsets with the counts of its [resultInfo]. *)
Record RrsetsPage : Type := mkPage {
  page_rrsets : list JSON;
  page_offset : Z;
  page_returned : Z;
  page_total : Z
}.

Definition is_rrsets_page (resp : Response) (p : RrsetsPage) : Prop :=
  status_code resp = 200%Z
  /\ exists d info,
       json_body resp = Some (JObj d)
       /\ dict_get d "rrSets" = Some (JArr (page_rrsets p))
       /\ dict_get d "resultInfo" = Some (JObj info)
       /\ dict_get info "offset" = Some (JNum (page_offset p))
       /\ dict_get info "returnedCount" = Some (JNum (page_returned p))
       /\ dict_get info "totalCount" = Some (JNum (page_total p)).

(** The counts of the page announce further rrsets. *)
Definition more_after (p : RrsetsPage) : Prop :=
  (page_offset p + page_returned p < page_total p)%Z.

(** From the history [hist], asked from the offset [offset] and then
    from the offset advanced by each page's returned count, the server
    answers with the pages [pages], each announcing more, and then with
    the page [last], which does not. *)
Fixpoint serves_rrsets (server : Server) (hist : list Request)
    (zone_name : string) (offset : Z) (pages : list RrsetsPage)
    (last : RrsetsPage) : Prop :=
  let hist' := hist ++ [rrsets_request zone_name offset] in
  match pages with
  | [] => is_rrsets_page (server hist') last /\ ~ more_after last
  | p :: pages' =>
      is_rrsets_page (server hist') p /\ more_after p
      /\ serves_rrsets server hist' zone_name (offset + page_returned p)
                       pages' last
  end.

Fixpoint rrsets_requests (zone_name : string) (offset : Z)
    (pages : list RrsetsPage) : list Request :=
  rrsets_request zone_name offset
  :: match pages with
     | [] => []
     | p :: pages' =>
         rrsets_requests zone_name (offset + page_returned p) pages'
     end.

Definition served_rrsets (pages : list RrsetsPage) (last : RrsetsPage)
  : list JSON :=
  concat (map page_rrsets pages) ++ page_rrsets last.

(** The body of a page of rrsets. *)
Definition rrsets_body (p : RrsetsPage) : JSON :=
  JObj [("zoneName", JStr "unit.tests.");
        ("rrSets", JArr (page_rrsets p));
        ("resultInfo",
         JObj [("totalCount", JNum (page_total p));
               ("offset", JNum (page_offset p));
               ("returnedCount", JNum (page_returned p))])].

Definition first_page : RrsetsPage := mkPage [soa_entry; a_entry] 0 2 3.

Definition second_page : RrsetsPage :=
  mkPage [tlsa_entry "a.unit.tests."] 2 1 3.

(** A vendor that returns the three rrsets of [unit.tests.] in a page of
    two and a page of one. *)
Definition small_pages : Server := fun hist =>
  match hist with
  | [_] => mkResponse 200 "OK" EmptyString (Some (rrsets_body first_page))
  | _ => mkResponse 200 "OK" EmptyString (Some (rrsets_body second_page))
  end.

(** A provider that has listed the zone [unit.tests.] and fetched nothing
    yet. *)
Definition listed : Provider :=
  mkProvider [] "testacct" (Some [JStr "unit.tests."]) ∅.

(** Every entry of the record cache is still there, unchanged. *)
Definition cache_grows (self self' : Provider) : Prop :=
  forall k v, _zone_records self !! k = Some v ->
              _zone_records self' !! k = Some v.

(** The request that deletes the rrset of a record. *)
Definition delete_request (existing : DnsRecord) : Request :=
  mkRequest "DELETE" (delete_path existing) None None None.

(** A vendor that answers every request with 204 and an empty body. *)
Definition no_content : Server := fun _ =>
  mkResponse 204 "No Content" EmptyString None.

(** A vendor that creates zones and refuses everything else. *)
Definition refusing : Server := fun hist =>
  match hist with
  | [_] => mkResponse 201 "Created" "{}" (Some (JObj []))
  | _ => mkResponse 400 "Bad Request" "{}" (Some (JObj []))
  end.

(** An rrset of the owner [owner] and the rrtype label [label] that has no
    [profile]. *)
Definition plain_rrset (entry owner : JSON) (label : string) : Prop :=
  exists d, entry = JObj d
            /\ dict_get d "ownerName" = Some owner
            /\ dict_get d "rrtype" = Some (JStr label)
            /\ dict_get d "profile" = None.

(** An A rrset of a directional pool. *)
Definition pool_rrset (entry owner : JSON) : Prop :=
  exists d profile,
    entry = JObj d
    /\ dict_get d "ownerName" = Some owner
    /\ dict_get d "rrtype" = Some (JStr "A (1)")
    /\ dict_get d "profile" = Some (JObj profile)
    /\ dict_get profile "@context" = Some (JStr DirPool).

(** An instance of [hostname_from_fqdn] for the examples: it knows the
    apex of [unit.tests.] and the name [a]. *)
Definition hostname_in_unit_tests (z : Zone.t) (owner : JSON)
  : Outcome string :=
  match owner with
  | JStr "unit.tests." => Ok EmptyString
  | JStr "a.unit.tests." => Ok "a"
  | JStr _ => Ok "other"
  | _ => Raise (AttributeError "endswith")
  end.

(** * Properties *)

(** ** Transport *)

Section TransportFacts.

Variable server : Server.

Lemma _request_unauthorized m p ps d j jr self :
  status_code (server (sent self ++ [mkRequest m p ps d j])) = 401%Z ->
  (_request server m p ps d j jr self).1 = Raise UltraClientUnauthorized.
Proof.
  intros H. unfold _request. rewrite H. reflexivity.
Qed.

(** With a status other than 401 and 404 the body is returned as decoded,
    or the status raises; the body is not looked into. *)
Lemma _request_other_status m p ps d j self payload :
  let resp := server (sent self ++ [mkRequest m p ps d j]) in
  status_code resp <> 401%Z -> status_code resp <> 404%Z ->
  json_body resp = Some payload ->
  (_request server m p ps d j true self).1
  = (_ ← raise_for_status resp; Ok payload).
Proof.
  intros resp H1 H4 Hb. unfold _request. fold resp.
  apply Z.eqb_neq in H1. rewrite H1. simpl. rewrite Hb.
  unfold no_zones_body. apply Z.eqb_neq in H4. rewrite H4. reflexivity.
Qed.

End TransportFacts.

(** C10.  A request that expects JSON decodes the body before it looks at
    the status, except that a 401 is raised first: with any other status, a
    body that does not decode fails with the decoding error, also when the
    status is a 4xx or 5xx that would otherwise raise the HTTP error. *)
Theorem request_decodes_before_status :
  forall (server : Server) m p ps d j (self : Provider),
    let resp := server (sent self ++ [mkRequest m p ps d j]) in
    (status_code resp = 401%Z ->
     (_request server m p ps d j true self).1 = Raise UltraClientUnauthorized)
    /\ (status_code resp <> 401%Z -> json_body resp = None ->
        (_request server m p ps d j true self).1 = Raise JSONDecodeError
        /\ forall st r b,
             (_request server m p ps d j true self).1 <> Raise (HTTPError st r b)).
Proof.
  intros server m p ps d j self resp. split.
  - apply _request_unauthorized.
  - intros H1 Hb.
    assert (E : (_request server m p ps d j true self).1 = Raise JSONDecodeError).
    { unfold _request. fold resp. apply Z.eqb_neq in H1. rewrite H1.
      simpl. rewrite Hb. reflexivity. }
    split; [exact E | intros st r b; rewrite E; discriminate].
Qed.

(** C1, as stated, fails: the 70002 body is only looked for when the status
    is 404.  With status 200 the same body is returned as the payload. *)
Lemma no_zones_any_status_counterexample :
  ~ (forall (server : Server) m p ps d j (self : Provider) o code,
       let resp := server (sent self ++ [mkRequest m p ps d j]) in
       status_code resp <> 401%Z ->
       json_body resp = Some (JArr [JObj o]) ->
       dict_get o "errorCode" = Some code -> py_eq_int code 70002 = true ->
       (_request server m p ps d j true self).1
       = Raise UltraNoZonesExistException).
Proof.
  intros H.
  specialize (H (fun _ => mkResponse 200 "OK" EmptyString (Some empty_body))
                "GET" "/v3/zones" None None None (initial "acct")
                [("errorCode", JNum 70002);
                 ("errorMessage", JStr "Data not found.")]
                (JNum 70002)).
  simpl in H. specialize (H ltac:(lia) eq_refl eq_refl eq_refl).
  vm_compute in H. discriminate H.
Qed.

(** C1, amended.  A 404 response to a request that expects JSON whose
    decoded body is a one-element array holding an object with
    [errorCode == 70002] raises the NoZonesExist exception. *)
Theorem no_zones_on_404 :
  forall (server : Server) m p ps d j (self : Provider) o code,
    let resp := server (sent self ++ [mkRequest m p ps d j]) in
    status_code resp = 404%Z ->
    json_body resp = Some (JArr [JObj o]) ->
    dict_get o "errorCode" = Some code -> py_eq_int code 70002 = true ->
    (_request server m p ps d j true self).1
    = Raise UltraNoZonesExistException.
Proof.
  intros server m p ps d j self o code resp H4 Hb Hc He.
  unfold _request. fold resp. rewrite H4, Hb. simpl.
  unfold no_zones_body. rewrite H4. simpl. rewrite Hc. simpl.
  rewrite He. reflexivity.
Qed.

Lemma no_zones_on_404_witness :
  (_request (fun _ => mkResponse 404 "Not Found" EmptyString (Some empty_body))
            "GET" "/v3/zones" None None None true (initial "acct")).1
  = Raise UltraNoZonesExistException.
Proof.
  apply (no_zones_on_404
           (fun _ => mkResponse 404 "Not Found" EmptyString (Some empty_body))
           "GET" "/v3/zones" None None None (initial "acct")
           [("errorCode", JNum 70002);
            ("errorMessage", JStr "Data not found.")]
           (JNum 70002)); reflexivity.
Defined.

Lemma request_decodes_before_status_witness :
  (_request (fun _ => mkResponse 500 "Server Error" "<html>" None)
            "GET" "/v3/zones" None None None true (initial "acct")).1
  = Raise JSONDecodeError.
Proof.
  apply (request_decodes_before_status
           (fun _ => mkResponse 500 "Server Error" "<html>" None)
           "GET" "/v3/zones" None None None (initial "acct"));
    [simpl; lia | reflexivity].
Defined.

(** ** Record codec *)

(** C4.  The payload of an A or AAAA record always has the TTL and the
    values as [rdata]; it has a [profile] with order FIXED and the record's
    fqdn as description when there are two or more values, and no [profile]
    key otherwise (in particular with exactly one value). *)
Theorem contents_profile_iff_multiple :
  forall (r : DnsRecord) (vs : list string),
    _type r = "A" \/ _type r = "AAAA" ->
    rdata r = Values vs ->
    exists path payload,
      _gen_data r = Ok (path, JObj payload)
      /\ dict_get payload "ttl" = Some (JNum (ttl r))
      /\ dict_get payload "rdata" = Some (strs vs)
      /\ (2 <= length vs ->
          exists profile,
            dict_get payload "profile" = Some (JObj profile)
            /\ dict_get profile "order" = Some (JStr "FIXED")
            /\ dict_get profile "description" = Some (JStr (fqdn r)))
      /\ (length vs < 2 -> dict_get payload "profile" = None)
      /\ (is_Some (dict_get payload "profile") <-> 2 <= length vs).
Proof.
  intros r vs Ht Hv.
  assert (Hg : getattr contents_for_table (_type r)
               = Some _contents_for_multiple_resource_distribution).
  { destruct Ht as [-> | ->]; reflexivity. }
  unfold _gen_data. rewrite Hg.
  unfold _contents_for_multiple_resource_distribution, values.
  rewrite Hv. simpl.
  destruct (1 <? length vs)%nat eqn:E.
  - apply Nat.ltb_lt in E. eexists _, _. split; [reflexivity |].
    simpl. repeat split; try done; try lia.
    intros _. eexists. repeat split; reflexivity.
  - apply Nat.ltb_ge in E. eexists _, _. split; [reflexivity |].
    simpl. repeat split; try done; try lia.
Qed.

Lemma contents_profile_iff_multiple_witness :
  exists path payload,
    _gen_data (mkRecord EmptyString "A" 300 "unit.tests." (Zone.mk "unit.tests.")
                        (Values ["1.2.3.4"; "1.2.3.5"]))
    = Ok (path, JObj payload)
    /\ is_Some (dict_get payload "profile").
Proof.
  destruct (contents_profile_iff_multiple
              (mkRecord EmptyString "A" 300 "unit.tests." (Zone.mk "unit.tests.")
                        (Values ["1.2.3.4"; "1.2.3.5"]))
              ["1.2.3.4"; "1.2.3.5"] (or_introl eq_refl) eq_refl)
    as (path & payload & Hg & _ & _ & _ & _ & Hp).
  exists path, payload. split; [exact Hg | apply Hp; simpl; lia].
Defined.

Lemma prefix_cons a s1 b s2 :
  String.prefix (String a s1) (String b s2)
  = Ascii.eqb a b && String.prefix s1 s2.
Proof.
  change (String.prefix (String a s1) (String b s2))
    with (if ascii_dec a b then String.prefix s1 s2 else false).
  destruct (ascii_dec a b) as [-> | Hne].
  - rewrite Ascii.eqb_refl. reflexivity.
  - apply Ascii.eqb_neq in Hne. rewrite Hne. reflexivity.
Qed.

Lemma prefix_empty s : String.prefix EmptyString s = true.
Proof. destruct s; reflexivity. Qed.

Lemma replace_from_cons old new c s :
  replace_from old new 0 (String c s)
  = if String.prefix old (String c s)
    then new +:+ replace_from old new (String.length old - 1) s
    else String c (replace_from old new 0 s).
Proof. reflexivity. Qed.

(** The two replacements of the TXT codec, character by character. *)
Lemma txt_decode_cons c s :
  str_replace ";" "\;" (String c s)
  = if Ascii.eqb c ";"%char then "\;" +:+ str_replace ";" "\;" s
    else String c (str_replace ";" "\;" s).
Proof.
  unfold str_replace. rewrite replace_from_cons, prefix_cons, prefix_empty.
  rewrite andb_true_r, Ascii.eqb_sym. reflexivity.
Qed.

Lemma txt_decode_head s : String.prefix ";" (str_replace ";" "\;" s) = false.
Proof.
  destruct s as [| c s]; [reflexivity |].
  rewrite txt_decode_cons.
  destruct (Ascii.eqb_spec c ";"%char) as [-> | Hne]; [reflexivity |].
  rewrite prefix_cons. apply andb_false_intro1.
  apply Ascii.eqb_neq. congruence.
Qed.

Lemma txt_encode_escaped t :
  str_replace "\;" ";" ("\;" +:+ t) = ";" +:+ str_replace "\;" ";" t.
Proof.
  unfold str_replace.
  change ("\;" +:+ t) with (String "\"%char (String ";"%char t)).
  rewrite replace_from_cons, !prefix_cons, prefix_empty.
  rewrite !Ascii.eqb_refl. reflexivity.
Qed.

Lemma txt_encode_plain c t :
  c <> ";"%char -> String.prefix ";" t = false ->
  str_replace "\;" ";" (String c t) = String c (str_replace "\;" ";" t).
Proof.
  intros Hc Ht. unfold str_replace.
  rewrite replace_from_cons.
  replace (String.prefix "\;" (String c t)) with false; [reflexivity |].
  rewrite prefix_cons, Ht. symmetry. apply andb_false_r.
Qed.

Lemma txt_encode_decode v :
  str_replace "\;" ";" (str_replace ";" "\;" v) = v.
Proof.
  induction v as [| c v IH]; [reflexivity |].
  rewrite txt_decode_cons.
  destruct (Ascii.eqb_spec c ";"%char) as [-> | Hne].
  - rewrite txt_encode_escaped, IH. reflexivity.
  - rewrite txt_encode_plain by (auto using txt_decode_head).
    rewrite IH. reflexivity.
Qed.

Lemma mapM_py_str_replace old new (vs : list string) :
  mapM (py_str_replace old new) (map JStr vs)
  = Ok (map JStr (map (str_replace old new) vs)).
Proof.
  induction vs as [| v vs IH]; [reflexivity |].
  simpl. rewrite IH. reflexivity.
Qed.

(** C3.  Decoding a TXT rrset escapes every [;] of every data string, and
    encoding the decoded record unescapes every [\;]: the data strings the
    encoder sends are the ones the vendor returned. *)
Theorem txt_encode_after_decode :
  forall (records ttl_ : JSON) (vs : list string),
    py_getitem records "ttl" = Ok ttl_ ->
    py_getitem records "rdata" = Ok (strs vs) ->
    (forall c s,
        str_replace ";" "\;" (String c s)
        = if Ascii.eqb c ";"%char then "\;" +:+ str_replace ";" "\;" s
          else String c (str_replace ";" "\;" s))
    /\ (forall t,
           str_replace "\;" ";" ("\;" +:+ t) = ";" +:+ str_replace "\;" ";" t)
    /\ (forall v, str_replace "\;" ";" (str_replace ";" "\;" v) = v)
    /\ exists decoded,
         _data_for_TXT "TXT" records
         = Ok (JObj [("ttl", ttl_); ("type", JStr "TXT");
                     ("values", strs decoded)])
         /\ decoded = map (str_replace ";" "\;") vs
         /\ forall r, rdata r = Values decoded ->
              _contents_for_TXT r
              = Ok (JObj [("ttl", JNum (ttl r)); ("rdata", strs vs)]).
Proof.
  intros records ttl_ vs Ht Hr.
  split; [exact txt_decode_cons |].
  split; [exact txt_encode_escaped |].
  split; [exact txt_encode_decode |].
  exists (map (str_replace ";" "\;") vs). split; [| split; [reflexivity |]].
  - unfold _data_for_TXT. rewrite Ht, Hr. simpl.
    rewrite mapM_py_str_replace. reflexivity.
  - intros r Hv. unfold _contents_for_TXT, values. rewrite Hv. simpl.
    rewrite map_map.
    rewrite (map_ext _ (fun v => v)) by (intros; apply txt_encode_decode).
    rewrite map_id. reflexivity.
Qed.

Lemma txt_encode_after_decode_witness :
  _contents_for_TXT
    (mkRecord "txt" "TXT" 600 "txt.unit.tests." (Zone.mk "unit.tests.")
              (Values (map (str_replace ";" "\;")
                           ["v=DKIM1;k=rsa;s=email"; "a\;b"])))
  = Ok (JObj [("ttl", JNum 600);
              ("rdata", strs ["v=DKIM1;k=rsa;s=email"; "a\;b"])]).
Proof.
  destruct (txt_encode_after_decode
              (JObj [("ttl", JNum 600);
                     ("rdata", strs ["v=DKIM1;k=rsa;s=email"; "a\;b"])])
              (JNum 600) ["v=DKIM1;k=rsa;s=email"; "a\;b"]
              eq_refl eq_refl)
    as (_ & _ & _ & decoded & _ & -> & H).
  apply H. reflexivity.
Defined.

(** ** Zone lister *)

Section ZonesFacts.

Variable server : Server.

Lemma _get_200 p ps self payload :
  let resp := server (sent self ++ [mkRequest "GET" p ps None None]) in
  status_code resp = 200%Z -> json_body resp = Some payload ->
  _get server p ps self
  = (Ok payload, with_sent [mkRequest "GET" p ps None None] self).
Proof.
  intros resp Hs Hb. unfold _get, _request. fold resp.
  rewrite Hs, Hb. unfold no_zones_body, raise_for_status. rewrite Hs.
  reflexivity.
Qed.

Lemma _get_no_zones p ps self :
  is_no_zones (server (sent self ++ [mkRequest "GET" p ps None None])) ->
  _get server p ps self
  = (Raise UltraNoZonesExistException,
     with_sent [mkRequest "GET" p ps None None] self).
Proof.
  intros (Hs & o & code & Hb & Hc & He). unfold _get, _request.
  rewrite Hs, Hb. unfold no_zones_body. rewrite Hs. simpl.
  rewrite Hc. simpl. rewrite He. reflexivity.
Qed.

Lemma zones_page_next o info zs next acc :
  dict_get o "zones" = Some (JArr zs) ->
  dict_get o "cursorInfo" = Some (JObj info) ->
  dict_get info "next" = next ->
  zones_page (JObj o) acc = Ok (acc ++ zs, next).
Proof.
  intros Hz Hi Hn. unfold zones_page, py_getitem, py_iter, py_contains.
  rewrite Hz, Hi. cbn [mbind Outcome_bind]. rewrite Hn.
  destruct next as [t |]; reflexivity.
Qed.

Lemma zones_data_set cursor next :
  dict_set (zones_data cursor) "cursor" next = zones_data (Some next).
Proof. destruct cursor; reflexivity. Qed.

Lemma with_sent_app r1 r2 self :
  with_sent r2 (with_sent r1 self) = with_sent (r1 ++ r2) self.
Proof. unfold with_sent. simpl. rewrite app_assoc. reflexivity. Qed.

Lemma zones_paging_S n data acc self :
  zones_paging server (S n) data acc self
  = match _get server "/v3/zones" (Some data) self with
    | (Raise UltraNoZonesExistException, self') => (Ok acc, self')
    | (Raise e, self') => (Raise e, self')
    | (Diverge, self') => (Diverge, self')
    | (Ok resp, self') =>
        match zones_page resp acc with
        | Ok (zones', Some next) =>
            zones_paging server n (dict_set data "cursor" next) zones' self'
        | Ok (zones', None) => (Ok zones', self')
        | Raise e => (Raise e, self')
        | Diverge => (Diverge, self')
        end
    end.
Proof. reflexivity. Qed.

Lemma _get_zones_page cursor self zs next :
  is_zones_page (server (sent self ++ [zones_request cursor])) zs next ->
  exists o info,
    _get server "/v3/zones" (Some (zones_data cursor)) self
    = (Ok (JObj o), with_sent [zones_request cursor] self)
    /\ dict_get o "zones" = Some (JArr zs)
    /\ dict_get o "cursorInfo" = Some (JObj info)
    /\ dict_get info "next" = next.
Proof.
  intros (H2 & o & info & Hb & Hz & Hi & Hx). exists o, info.
  split; [| auto]. apply _get_200; assumption.
Qed.

Lemma zones_paging_serves pages : forall final cursor acc self n,
  serves server (sent self) cursor pages final ->
  length pages < n ->
  zones_paging server n (zones_data cursor) acc self
  = (Ok (acc ++ served_zones pages final),
     with_sent (zones_request cursor
                :: map (fun p => zones_request (Some p.2)) pages) self).
Proof.
  induction pages as [| [zs next] pages IH];
    intros final cursor acc self n Hs Hn;
    (destruct n as [| n]; [simpl in Hn; lia |]);
    rewrite zones_paging_S.
  - simpl in Hs. unfold served_zones. simpl.
    destruct final as [zs |].
    + apply _get_zones_page in Hs as (o & info & -> & Hz & Hi & Hx).
      rewrite (zones_page_next o info zs None) by assumption.
      reflexivity.
    + rewrite _get_no_zones by assumption.
      rewrite app_nil_r. reflexivity.
  - simpl in Hs. destruct Hs as [Hp Hs].
    apply _get_zones_page in Hp as (o & info & -> & Hz & Hi & Hx).
    rewrite (zones_page_next o info zs (Some next)) by assumption.
    rewrite zones_data_set.
    rewrite (IH final (Some next) (acc ++ zs)
                (with_sent [zones_request cursor] self) n)
      by (simpl in *; first [assumption | lia]).
    rewrite with_sent_app. unfold served_zones. simpl.
    rewrite <- !app_assoc. reflexivity.
Qed.

End ZonesFacts.

(** C5.  When the vendor serves a sequence of pages, each but the last
    announcing a [next] token, and then either a page without [next] or the
    "no zones" answer, [zones] sends exactly one request per answer: the
    first with the limit 1000 and the filter [zone_type:PRIMARY], each
    further one with the previous page's token as [cursor].  It returns the
    names of the zones of all the pages in the order of the answers and
    caches them; the "no zones" answer ends the paging without an error,
    and as the first answer it yields the empty list. *)
Theorem zones_pages_concatenated :
  forall (server : Server) (fuel : nat) (self : Provider)
         (pages : list (list JSON * JSON)) (final : option (list JSON))
         (names : list JSON),
    _zones self = None ->
    serves server (sent self) None pages final ->
    length pages < fuel ->
    mapM properties_name (served_zones pages final) = Ok names ->
    zones server fuel self
    = (Ok names, set_zones (Some names) (with_sent (zones_requests pages) self))
    /\ (pages = [] -> final = None -> names = []).
Proof.
  intros server fuel self pages final names Hz Hs Hf Hn. split.
  - unfold zones. rewrite Hz.
    change [("limit", JNum ZONE_REQUEST_LIMIT); ("q", JStr "zone_type:PRIMARY")]
      with (zones_data None).
    rewrite (zones_paging_serves server pages final None [] self fuel Hs Hf).
    rewrite app_nil_l, Hn. reflexivity.
  - intros -> ->. cbv in Hn. congruence.
Qed.

Lemma zones_pages_concatenated_witness :
  zones two_pages 3 (initial "testacct")
  = (Ok [JStr "testzone123.com."; JStr "testzone456.com."],
     mkProvider [zones_request None; zones_request (Some (JStr "next-page"))]
                "testacct"
                (Some [JStr "testzone123.com."; JStr "testzone456.com."]) ∅).
Proof.
  apply (zones_pages_concatenated two_pages 3 (initial "testacct")
           [([zone_entry "testzone123.com."], JStr "next-page")]
           (Some [zone_entry "testzone456.com."])
           [JStr "testzone123.com."; JStr "testzone456.com."]).
  - reflexivity.
  - simpl. split; (split; [reflexivity | eexists _, _; repeat split]).
  - simpl. lia.
  - reflexivity.
Defined.

(** The listing of an account without zones: one request, no error, the
    empty list. *)
Example zones_of_empty_account :
  zones no_zones 1 (initial "testacct")
  = (Ok [], mkProvider [zones_request None] "testacct" (Some []) ∅).
Proof. reflexivity. Qed.

(** ** Frames *)

Lemma frame_refl keep self : frame keep self self.
Proof.
  repeat split; auto. exists []. rewrite app_nil_r. reflexivity.
Qed.

Lemma frame_trans keep s1 s2 s3 :
  frame keep s1 s2 -> frame keep s2 s3 -> frame keep s1 s3.
Proof.
  intros (Ha & [r1 Hs] & Hz & Hk) (Ha' & [r2 Hs'] & Hz' & Hk').
  repeat split.
  - congruence.
  - exists (r1 ++ r2). rewrite Hs', Hs, app_assoc. reflexivity.
  - auto.
  - intros k Hkeep. rewrite Hk', Hk by assumption. reflexivity.
Qed.

Lemma frame_weaken (keep keep' : string -> Prop) s1 s2 :
  (forall k, keep' k -> keep k) -> frame keep s1 s2 -> frame keep' s1 s2.
Proof.
  intros Hsub (Ha & Hs & Hz & Hk). repeat split; auto.
Qed.

Lemma frame_with_sent keep reqs self : frame keep self (with_sent reqs self).
Proof.
  repeat split; auto. exists reqs. reflexivity.
Qed.

Lemma preserves_ret {A} keep (a : A) : preserves (frame keep) (mret a).
Proof. intros self. apply frame_refl. Qed.

Lemma preserves_lift {A} keep (o : Outcome A) : preserves (frame keep) (lift o).
Proof. intros self. apply frame_refl. Qed.

Lemma preserves_gets {A} keep (f : Provider -> A) :
  preserves (frame keep) (gets f).
Proof. intros self. apply frame_refl. Qed.

Lemma preserves_bind {A B} keep (m : M A) (f : A -> M B) :
  preserves (frame keep) m -> (forall a, preserves (frame keep) (f a)) ->
  preserves (frame keep) (m ≫= f).
Proof.
  intros Hm Hf self. specialize (Hm self).
  unfold mbind, M_bind. destruct (m self) as [[a | e |] self1]; simpl in *;
    try exact Hm.
  eapply frame_trans; [exact Hm | apply Hf].
Qed.

Lemma preserves_weaken {A} (keep keep' : string -> Prop) (m : M A) :
  (forall k, keep' k -> keep k) ->
  preserves (frame keep) m -> preserves (frame keep') m.
Proof. intros Hsub Hm self. eapply frame_weaken; eauto. Qed.

Section Frames.

Variable server : Server.
Variable fuel : nat.

Lemma _request_state m p ps d j jr self :
  (_request server m p ps d j jr self).2
  = with_sent [mkRequest m p ps d j] self.
Proof.
  unfold _request. destruct (status_code _ =? 401)%Z; reflexivity.
Qed.

Lemma _request_preserves keep m p ps d j jr :
  preserves (frame keep) (_request server m p ps d j jr).
Proof.
  intros self. rewrite _request_state. apply frame_with_sent.
Qed.

Lemma zones_paging_preserves keep n : forall data acc,
  preserves (frame keep) (zones_paging server n data acc).
Proof.
  induction n as [| n IH]; intros data acc self; [apply frame_refl |].
  rewrite zones_paging_S.
  pose proof (_request_preserves keep "GET" "/v3/zones" (Some data) None None
                true self) as Hg.
  unfold _get.
  destruct (_request server "GET" "/v3/zones" (Some data) None None true self)
    as [[resp | e |] self1]; simpl in Hg.
  - destruct (zones_page resp acc) as [[zones' [next |]] | e |]; simpl; auto.
    eapply frame_trans; [exact Hg | apply IH].
  - destruct e; exact Hg.
  - exact Hg.
Qed.

Lemma zones_cached self zs :
  _zones self = Some zs -> zones server fuel self = (Ok zs, self).
Proof. intros H. unfold zones. rewrite H. reflexivity. Qed.

Lemma zones_preserves keep : preserves (frame keep) (zones server fuel).
Proof.
  intros self. unfold zones.
  destruct (_zones self) as [zs |] eqn:Hz; [apply frame_refl |].
  match goal with
  | |- context [zones_paging server fuel ?d ?a self] =>
      pose proof (zones_paging_preserves keep fuel d a self) as Hp;
      destruct (zones_paging server fuel d a self) as [[zones | e |] self1]
  end; simpl in *; try exact Hp.
  destruct (mapM properties_name zones) as [names | e |]; simpl; try exact Hp.
  destruct Hp as (Ha & Hs & Hzs & Hk). repeat split; auto.
  intros zs Hzs'. congruence.
Qed.

(** A successful [zones] leaves the list it returns in the cache. *)
Lemma zones_ok self zs self' :
  zones server fuel self = (Ok zs, self') -> _zones self' = Some zs.
Proof.
  unfold zones. destruct (_zones self) as [zs0 |] eqn:Hz.
  - intros [= <- <-]. exact Hz.
  - destruct (zones_paging server fuel _ [] self) as [[zones | e |] self1];
      try discriminate.
    destruct (mapM properties_name zones) as [names | e |]; try discriminate.
    intros [= <- <-]. reflexivity.
Qed.

Lemma zones_records_unchanged self :
  _zone_records (zones server fuel self).2 = _zone_records self.
Proof.
  unfold zones. destruct (_zones self); [reflexivity |].
  match goal with
  | |- context [zones_paging server fuel ?d ?a self] =>
      pose proof (zones_paging_preserves everywhere fuel d a self)
        as (_ & _ & _ & Hk);
      destruct (zones_paging server fuel d a self) as [[zones | e |] self1]
  end; simpl in *;
    [destruct (mapM properties_name zones) as [names | e |]; simpl | |];
    apply map_eq; intros k; apply Hk; exact I.
Qed.

Lemma only_sent_refl P self : only_sent P self self.
Proof. exists []. rewrite app_nil_r. auto. Qed.

Lemma only_sent_trans P s1 s2 s3 :
  only_sent P s1 s2 -> only_sent P s2 s3 -> only_sent P s1 s3.
Proof.
  intros (r1 & H1 & F1) (r2 & H2 & F2). exists (r1 ++ r2). split.
  - rewrite H2, H1, app_assoc. reflexivity.
  - apply Forall_app. auto.
Qed.

Lemma zones_paging_only_zone_list n : forall data acc,
  preserves (only_sent zone_list_request) (zones_paging server n data acc).
Proof.
  induction n as [| n IH]; intros data acc self; [apply only_sent_refl |].
  rewrite zones_paging_S. unfold _get.
  assert (Hg : only_sent zone_list_request self
                 (_request server "GET" "/v3/zones" (Some data) None None
                           true self).2).
  { rewrite _request_state. eexists. split; [reflexivity |].
    constructor; [split; reflexivity | constructor]. }
  destruct (_request server "GET" "/v3/zones" (Some data) None None true self)
    as [[resp | e |] self1]; simpl in Hg.
  - destruct (zones_page resp acc) as [[zones' [next |]] | e |]; simpl; auto.
    eapply only_sent_trans; [exact Hg | apply IH].
  - destruct e; exact Hg.
  - exact Hg.
Qed.

Lemma zones_only_zone_list :
  preserves (only_sent zone_list_request) (zones server fuel).
Proof.
  intros self. unfold zones.
  destruct (_zones self); [apply only_sent_refl |].
  match goal with
  | |- context [zones_paging server fuel ?d ?a self] =>
      pose proof (zones_paging_only_zone_list fuel d a self) as Hp;
      destruct (zones_paging server fuel d a self) as [[zones | e |] self1]
  end; simpl in *; try exact Hp.
  destruct (mapM properties_name zones) as [names | e |]; exact Hp.
Qed.

Lemma rrsets_paging_preserves keep n : forall path offset acc,
  preserves (frame keep) (rrsets_paging server n path offset acc).
Proof.
  induction n as [| n IH]; intros path offset acc self; [apply frame_refl |].
  simpl. unfold _get.
  match goal with
  | |- context [_request server ?m ?p ?ps ?d ?j ?jr self] =>
      pose proof (_request_preserves keep m p ps d j jr self) as Hg;
      destruct (_request server m p ps d j jr self) as [[resp | e |] self1]
  end; simpl in Hg; try exact Hg.
  destruct (rrsets_page resp offset acc) as [[records' [next |]] | e |];
    simpl; auto.
  eapply frame_trans; [exact Hg | apply IH].
Qed.

Lemma zone_records_preserves z :
  preserves (frame (fun k => k <> Zone.name z)) (zone_records server fuel z).
Proof.
  intros self. unfold zone_records.
  destruct (_zone_records self !! Zone.name z); [apply frame_refl |].
  pose proof (zones_preserves (fun k => k <> Zone.name z) self) as Hz.
  destruct (zones server fuel self) as [[zs | e |] self1]; simpl in Hz;
    try exact Hz.
  destruct (negb (name_in (Zone.name z) zs)); [exact Hz |].
  match goal with
  | |- context [rrsets_paging server fuel ?p ?o ?a self1] =>
      pose proof (rrsets_paging_preserves (fun k => k <> Zone.name z)
                    fuel p o a self1) as Hr;
      destruct (rrsets_paging server fuel p o a self1)
        as [[records | e |] self2]
  end; simpl in *; try (eapply frame_trans; [exact Hz | exact Hr]).
  eapply frame_trans; [exact Hz |]. eapply frame_trans; [exact Hr |].
  repeat split; auto.
  - exists []. simpl. rewrite app_nil_r. reflexivity.
  - intros k Hk. simpl. rewrite lookup_insert_ne; auto.
Qed.

End Frames.

(** ** Record fetcher *)

Lemma cache_wf_initial account : cache_wf (initial account).
Proof. intros k [x Hx]. simpl in Hx. rewrite lookup_empty in Hx. discriminate. Qed.

Lemma cache_wf_zones server fuel self :
  cache_wf self -> cache_wf (zones server fuel self).2.
Proof.
  intros Hwf k Hk. rewrite zones_records_unchanged in Hk.
  destruct (Hwf k Hk) as (zs & Hz & Hin). exists zs. split; [| exact Hin].
  rewrite (zones_cached server fuel self zs Hz). exact Hz.
Qed.

Lemma cache_wf_zone_records server fuel z self :
  cache_wf self -> cache_wf (zone_records server fuel z self).2.
Proof.
  intros Hwf. unfold zone_records.
  destruct (_zone_records self !! Zone.name z) eqn:Hc; [exact Hwf |].
  pose proof (cache_wf_zones server fuel self Hwf) as Hwf1.
  destruct (zones server fuel self) as [[zs | e |] self1] eqn:Hz;
    simpl in Hwf1; try exact Hwf1.
  destruct (name_in (Zone.name z) zs) eqn:Hin; simpl; [| exact Hwf1].
  apply zones_ok in Hz.
  match goal with
  | |- context [rrsets_paging server fuel ?p ?o ?a self1] =>
      pose proof (rrsets_paging_preserves server everywhere fuel p o a self1)
        as (_ & _ & Hzs & Hk);
      destruct (rrsets_paging server fuel p o a self1)
        as [[records | e |] self2]
  end; simpl in *.
  - intros k Hsome. simpl in Hsome. exists zs. split; [auto |].
    destruct (decide (Zone.name z = k)) as [<- | Hne]; [exact Hin |].
    rewrite lookup_insert_ne in Hsome by exact Hne.
    rewrite Hk in Hsome by exact I.
    destruct (Hwf1 k Hsome) as (zs' & Hz' & Hin'). congruence.
  - intros k Hsome. rewrite Hk in Hsome by exact I.
    destruct (Hwf1 k Hsome) as (zs' & Hz' & Hin'). exists zs'. auto.
  - intros k Hsome. rewrite Hk in Hsome by exact I.
    destruct (Hwf1 k Hsome) as (zs' & Hz' & Hin'). exists zs'. auto.
Qed.

(** C7.  For a zone whose name is not in the list that [zones] returns,
    [zone_records] returns the empty list and leaves the provider as
    [zones] left it: the only requests it may have sent are those of the
    zone listing itself, and none at all when the list was already cached. *)
Theorem zone_records_unknown_zone :
  forall (server : Server) (fuel : nat) (z : Zone.t) (self self1 : Provider)
         (zs : list JSON),
    cache_wf self ->
    zones server fuel self = (Ok zs, self1) ->
    name_in (Zone.name z) zs = false ->
    zone_records server fuel z self = (Ok (JArr []), self1)
    /\ only_sent zone_list_request self self1
    /\ (is_Some (_zones self) -> sent self1 = sent self).
Proof.
  intros server fuel z self self1 zs Hwf Hz Hin. split; [| split].
  - unfold zone_records.
    destruct (_zone_records self !! Zone.name z) as [c |] eqn:Hc.
    + destruct (Hwf (Zone.name z)) as (zs' & Hz' & Hin'); [eauto |].
      rewrite (zones_cached server fuel self zs' Hz') in Hz.
      injection Hz as <- <-. congruence.
    + rewrite Hz, Hin. reflexivity.
  - pose proof (zones_only_zone_list server fuel self) as H.
    rewrite Hz in H. exact H.
  - intros [zs' Hz']. rewrite (zones_cached server fuel self zs' Hz') in Hz.
    injection Hz as <- <-. reflexivity.
Qed.

Lemma zone_records_unknown_zone_witness :
  zone_records two_pages 3 (Zone.mk "unit.tests.") (initial "testacct")
  = (Ok (JArr []),
     mkProvider [zones_request None; zones_request (Some (JStr "next-page"))]
                "testacct"
                (Some [JStr "testzone123.com."; JStr "testzone456.com."]) ∅).
Proof.
  apply (zone_records_unknown_zone two_pages 3 (Zone.mk "unit.tests.")
           (initial "testacct") _
           [JStr "testzone123.com."; JStr "testzone456.com."]).
  - apply cache_wf_initial.
  - reflexivity.
  - reflexivity.
Defined.

(** ** Deleting *)

Section DeleteFacts.

Variable server : Server.
Variable fuel : nat.

Lemma delete_scan_cons existing r rs self :
  delete_scan server existing (r :: rs) self
  = match py_getitem r "rrtype" with
    | Ok rrtype =>
        if py_eq_str rrtype "SOA (6)" then delete_scan server existing rs self
        else
          match delete_match existing r with
          | Ok true =>
              match _delete server (delete_path existing) false self with
              | (Ok _, self') => delete_scan server existing rs self'
              | (Raise e, self') => (Raise e, self')
              | (Diverge, self') => (Diverge, self')
              end
          | Ok false => delete_scan server existing rs self
          | Raise e => (Raise e, self)
          | Diverge => (Diverge, self)
          end
    | Raise e => (Raise e, self)
    | Diverge => (Diverge, self)
    end.
Proof.
  simpl. unfold mbind, M_bind, lift.
  destruct (py_getitem r "rrtype") as [rrtype | e |]; try reflexivity.
  destruct (py_eq_str rrtype "SOA (6)"); [reflexivity |].
  destruct (delete_match existing r) as [[|] | e |]; reflexivity.
Qed.

(** Scanning a snapshot is scanning its first part and then, unless that
    raised, the rest. *)
Lemma delete_scan_app existing pre : forall post self,
  delete_scan server existing (pre ++ post) self
  = match delete_scan server existing pre self with
    | (Ok _, self') => delete_scan server existing post self'
    | other => other
    end.
Proof.
  induction pre as [| r pre IH]; intros post self; [reflexivity |].
  rewrite <- app_comm_cons, !delete_scan_cons.
  destruct (py_getitem r "rrtype") as [rrtype | e |]; try reflexivity.
  destruct (py_eq_str rrtype "SOA (6)"); [apply IH |].
  destruct (delete_match existing r) as [[|] | e |]; try reflexivity;
    [| apply IH].
  destruct (_delete server (delete_path existing) false self)
    as [[x | e |] self1]; try reflexivity.
  apply IH.
Qed.

(** An entry with the record's owner name and an rrtype label outside the
    table makes the table lookup of the scan raise. *)
Lemma delete_match_unsupported existing entry owner label :
  py_getitem entry "ownerName" = Ok owner ->
  py_eq_str owner (fqdn existing) = true ->
  py_getitem entry "rrtype" = Ok (JStr label) ->
  dict_get RECORDS_TO_TYPE label = None ->
  delete_match existing entry = Raise (KeyError (JStr label)).
Proof.
  intros Ho He Hr Ht. unfold delete_match. rewrite Ho.
  cbn [mbind Outcome_bind]. rewrite He, Hr.
  cbn [mbind Outcome_bind records_to_type]. rewrite Ht. reflexivity.
Qed.

(** An entry with another owner name is passed over, whatever its rrtype. *)
Lemma delete_match_other_owner existing entry owner :
  py_getitem entry "ownerName" = Ok owner ->
  py_eq_str owner (fqdn existing) = false ->
  delete_match existing entry = Ok false.
Proof.
  intros Ho He. unfold delete_match. rewrite Ho. simpl. rewrite He.
  reflexivity.
Qed.

Lemma _apply_Delete_scan existing self snapshot self1 records :
  zone_records server fuel (zone existing) self = (Ok snapshot, self1) ->
  py_iter snapshot = Ok records ->
  _apply_Delete server fuel existing self
  = delete_scan server existing records self1.
Proof.
  intros Hz Hi. unfold _apply_Delete, mbind, M_bind, lift.
  rewrite Hz, Hi. reflexivity.
Qed.

(** The scan of a snapshot in which no entry matches and no entry of the
    record's owner name has an unknown rrtype: nothing is sent. *)
Lemma delete_scan_no_hit existing records self :
  Forall (fun r => exists rrtype,
              py_getitem r "rrtype" = Ok rrtype
              /\ (py_eq_str rrtype "SOA (6)" = true
                  \/ delete_match existing r = Ok false)) records ->
  delete_scan server existing records self = (Ok tt, self).
Proof.
  induction 1 as [| r rs (rrtype & Hr & Hcase) _ IH]; [reflexivity |].
  rewrite delete_scan_cons, Hr.
  destruct (py_eq_str rrtype "SOA (6)"); [exact IH |].
  destruct Hcase as [? | ->]; [discriminate | exact IH].
Qed.

(** When every entry of the snapshot is passed over, the delete does
    nothing: no request, no error. *)
Lemma _apply_Delete_no_match existing self snapshot self1 records :
  zone_records server fuel (zone existing) self = (Ok snapshot, self1) ->
  py_iter snapshot = Ok records ->
  Forall (passed_over existing) records ->
  _apply_Delete server fuel existing self = (Ok tt, self1).
Proof.
  intros Hz Hi Hall.
  rewrite (_apply_Delete_scan existing self snapshot self1 records Hz Hi).
  apply delete_scan_no_hit.
  eapply Forall_impl; [exact Hall |].
  intros entry (label & owner & Hr & Ho & Hcase). exists (JStr label).
  split; [exact Hr |]. cbn [py_eq_str].
  destruct (String.eqb_spec label "SOA (6)") as [-> | Hne]; [left; reflexivity |].
  right. unfold delete_match. rewrite Ho. cbn [mbind Outcome_bind].
  destruct Hcase as [-> | [-> | (t & Ht & Hneq)]];
    [congruence | reflexivity |].
  destruct (py_eq_str owner (fqdn existing)); [| reflexivity].
  rewrite Hr. cbn [mbind Outcome_bind records_to_type]. rewrite Ht.
  cbn [mbind Outcome_bind]. f_equal. apply String.eqb_neq. congruence.
Qed.

End DeleteFacts.

(** In the first loop of [populate], an rrset whose rrtype label is not in
    the table is skipped: the [KeyError] of the lookup is caught. *)
Lemma populate_step_unsupported hostname_from_fqdn z values entry owner name label :
  py_getitem entry "ownerName" = Ok owner ->
  hostname_from_fqdn z owner = Ok name ->
  py_getitem entry "rrtype" = Ok (JStr label) ->
  dict_get RECORDS_TO_TYPE label = None ->
  populate_step hostname_from_fqdn z values entry = Ok values.
Proof.
  intros Ho Hh Hr Ht. unfold populate_step. rewrite Ho.
  cbn [mbind Outcome_bind]. rewrite Hh. cbn [mbind Outcome_bind]. rewrite Hr.
  cbn [mbind Outcome_bind py_eq_str].
  destruct (String.eqb label "SOA (6)"); [reflexivity |].
  destruct (String.eqb_spec label "A (1)") as [-> | _]; [discriminate Ht |].
  cbn [mbind Outcome_bind records_to_type]. rewrite Ht. reflexivity.
Qed.

(** C6, at an input where the code departs from it.  The snapshot has no
    rrset matching the A record [a.unit.tests.] on owner name and mapped
    type, only a TLSA rrset at that owner name; the scan raises [KeyError]
    on its label instead of returning. *)
Theorem delete_unmatched_raises_on_unsupported :
  Forall (fun entry => ~ matches a_record entry) snapshot_without_a
  /\ _apply_Delete accepting 1 a_record (cached "unit.tests." snapshot_without_a)
     = (Raise (KeyError (JStr "TLSA (52)")),
        cached "unit.tests." snapshot_without_a).
Proof.
  split.
  - repeat constructor; intros (Ho & label & Hl & Ht); vm_compute in Ho, Hl;
      try discriminate Ho.
    injection Hl as <-. vm_compute in Ht. discriminate Ht.
  - vm_compute. reflexivity.
Qed.

(** C9, as stated, fails: an rrset of an unsupported type at another owner
    name does not make the scan raise.  Here the TLSA rrset is passed over
    and the A rrset after it is deleted. *)
Lemma delete_unsupported_elsewhere_counterexample :
  ~ (forall (server : Server) (fuel : nat) (existing : DnsRecord)
            (self self1 : Provider) (snapshot : list JSON) (entry : JSON)
            (label : string),
       zone_records server fuel (zone existing) self
       = (Ok (JArr snapshot), self1) ->
       entry ∈ snapshot ->
       py_getitem entry "rrtype" = Ok (JStr label) ->
       String.eqb label "SOA (6)" = false ->
       dict_get RECORDS_TO_TYPE label = None ->
       exists key, (_apply_Delete server fuel existing self).1
                   = Raise (KeyError key)).
Proof.
  intros H.
  destruct (H accepting 1 a_record
              (cached "unit.tests." snapshot_tlsa_elsewhere)
              (cached "unit.tests." snapshot_tlsa_elsewhere)
              snapshot_tlsa_elsewhere (tlsa_entry "_443._tcp.unit.tests.")
              "TLSA (52)" eq_refl) as [key Hkey];
    try reflexivity.
  - unfold snapshot_tlsa_elsewhere. set_solver.
  - vm_compute in Hkey. discriminate Hkey.
Qed.

(** C9, amended.  When the snapshot holds a non-SOA rrset whose rrtype
    label is not in the table and whose owner name is the fqdn of the
    record to delete, [_apply_Delete] raises the [KeyError] of the lookup
    as soon as the scan reaches it, whatever comes after it, a matching
    rrset included; [populate] skips the same rrset.  When its owner name
    is another one, the scan goes on as if the rrset were not there. *)
Theorem delete_unsupported_same_owner_raises :
  forall (server : Server) (fuel : nat) (existing : DnsRecord)
         (self self1 : Provider) (snapshot : JSON)
         (pre post : list JSON) (entry owner : JSON) (label : string),
    zone_records server fuel (zone existing) self = (Ok snapshot, self1) ->
    py_iter snapshot = Ok (pre ++ entry :: post) ->
    py_getitem entry "rrtype" = Ok (JStr label) ->
    String.eqb label "SOA (6)" = false ->
    dict_get RECORDS_TO_TYPE label = None ->
    py_getitem entry "ownerName" = Ok owner ->
    (py_eq_str owner (fqdn existing) = true ->
     _apply_Delete server fuel existing self
     = match delete_scan server existing pre self1 with
       | (Ok _, self2) => (Raise (KeyError (JStr label)), self2)
       | other => other
       end)
    /\ (py_eq_str owner (fqdn existing) = false ->
        _apply_Delete server fuel existing self
        = delete_scan server existing (pre ++ post) self1)
    /\ (forall hostname_from_fqdn z values name,
          hostname_from_fqdn z owner = Ok name ->
          populate_step hostname_from_fqdn z values entry = Ok values).
Proof.
  intros server fuel existing self self1 snapshot pre post entry owner label
         Hz Hi Hr Hsoa Ht Ho.
  rewrite (_apply_Delete_scan server fuel existing self snapshot self1 _ Hz Hi).
  rewrite !delete_scan_app. split; [| split].
  - intros He.
    destruct (delete_scan server existing pre self1) as [[[] | e |] self2];
      try reflexivity.
    rewrite delete_scan_cons, Hr. cbn [py_eq_str]. rewrite Hsoa.
    rewrite (delete_match_unsupported existing entry owner label) by assumption.
    reflexivity.
  - intros He.
    destruct (delete_scan server existing pre self1) as [[[] | e |] self2];
      try reflexivity.
    rewrite delete_scan_cons, Hr. cbn [py_eq_str]. rewrite Hsoa.
    rewrite (delete_match_other_owner existing entry owner) by assumption.
    reflexivity.
  - intros hostname_from_fqdn z values name Hh.
    eapply populate_step_unsupported; eassumption.
Qed.

Lemma delete_unsupported_same_owner_raises_witness :
  _apply_Delete accepting 1 a_record (cached "unit.tests." snapshot_tlsa_first)
  = (Raise (KeyError (JStr "TLSA (52)")),
     cached "unit.tests." snapshot_tlsa_first).
Proof.
  destruct (delete_unsupported_same_owner_raises accepting 1 a_record
              (cached "unit.tests." snapshot_tlsa_first)
              (cached "unit.tests." snapshot_tlsa_first)
              (JArr snapshot_tlsa_first)
              [soa_entry] [a_entry] (tlsa_entry "a.unit.tests.")
              (JStr "a.unit.tests.") "TLSA (52)"
              eq_refl eq_refl eq_refl eq_refl eq_refl eq_refl)
    as (H & _ & _).
  exact (H eq_refl).
Defined.

(** ** Applying a plan *)


Lemma bind_ok {A B} (m : M A) (f : A -> M B) self a self1 :
  m self = (Ok a, self1) -> (m ≫= f) self = f a self1.
Proof. intros H. unfold mbind, M_bind. rewrite H. reflexivity. Qed.

Lemma bind_raise {A B} (m : M A) (f : A -> M B) self e self1 :
  m self = (Raise e, self1) -> (m ≫= f) self = (Raise e, self1).
Proof. intros H. unfold mbind, M_bind. rewrite H. reflexivity. Qed.

Lemma bind_diverge {A B} (m : M A) (f : A -> M B) self self1 :
  m self = (Diverge, self1) -> (m ≫= f) self = (Diverge, self1).
Proof. intros H. unfold mbind, M_bind. rewrite H. reflexivity. Qed.

Lemma bind_assoc {A B C} (m : M A) (f : A -> M B) (g : B -> M C) self :
  ((m ≫= f) ≫= g) self = (m ≫= (fun a => f a ≫= g)) self.
Proof.
  unfold mbind, M_bind. destruct (m self) as [[a | e |] self1]; reflexivity.
Qed.

Section ApplyFacts.

Variable server : Server.
Variable fuel : nat.

Lemma delete_scan_preserves keep existing records :
  preserves (frame keep) (delete_scan server existing records).
Proof.
  induction records as [| r rs IH]; intros self; [apply frame_refl |].
  rewrite delete_scan_cons.
  destruct (py_getitem r "rrtype") as [rrtype | e |]; try apply frame_refl.
  destruct (py_eq_str rrtype "SOA (6)"); [apply IH |].
  destruct (delete_match existing r) as [[|] | e |]; try apply frame_refl;
    [| apply IH].
  pose proof (_request_preserves server keep "DELETE" (delete_path existing)
                None None None false self) as Hd.
  unfold _delete.
  destruct (_request server "DELETE" (delete_path existing) None None None
                     false self) as [[x | e |] self1]; simpl in *;
    try exact Hd.
  eapply frame_trans; [exact Hd | apply IH].
Qed.

Lemma _apply_Delete_preserves existing :
  preserves (frame (fun k => k <> Zone.name (zone existing)))
            (_apply_Delete server fuel existing).
Proof.
  unfold _apply_Delete.
  apply preserves_bind; [apply zone_records_preserves |].
  intros snapshot. apply preserves_bind; [apply preserves_lift |].
  intros records. apply delete_scan_preserves.
Qed.

Lemma _apply_Create_preserves keep new :
  preserves (frame keep) (_apply_Create server new).
Proof.
  unfold _apply_Create.
  apply preserves_bind; [apply preserves_lift |]. intros [path content].
  apply preserves_bind; [apply _request_preserves |]. intros _.
  apply preserves_ret.
Qed.

Lemma _apply_Update_preserves keep new :
  preserves (frame keep) (_apply_Update server new).
Proof.
  unfold _apply_Update.
  apply preserves_bind; [apply preserves_lift |]. intros [path content].
  apply preserves_bind; [apply _request_preserves |]. intros _.
  apply preserves_ret.
Qed.

Lemma apply_change_preserves change :
  preserves (frame (fun k => k <> Zone.name (zone (record change))))
            (apply_change server fuel change).
Proof.
  destruct change as [new | existing new | existing]; simpl.
  - apply _apply_Create_preserves.
  - apply _apply_Update_preserves.
  - apply _apply_Delete_preserves.
Qed.


(** Whatever the records of the changes, a cached zone list stays and the
    session only grows. *)
Lemma apply_changes_preserves_zones changes :
  preserves (frame (fun _ => False)) (apply_changes server fuel changes).
Proof.
  induction changes as [| change changes IH]; simpl; [apply preserves_ret |].
  apply preserves_bind; [| intros _; exact IH].
  eapply preserves_weaken; [| apply apply_change_preserves]. contradiction.
Qed.




Lemma _apply_present plan self zs self0 :
  zones server fuel self = (Ok zs, self0) ->
  name_in (Zone.name (desired plan)) zs = true ->
  _apply server fuel plan self
  = (_ ← apply_changes server fuel (changes plan);
     pop_zone_records (Zone.name (desired plan))) self0.
Proof.
  intros Hz Hin. unfold _apply. cbv zeta.
  rewrite (bind_ok _ _ _ _ _ Hz), Hin. reflexivity.
Qed.

Lemma _apply_absent plan self zs self0 :
  zones server fuel self = (Ok zs, self0) ->
  name_in (Zone.name (desired plan)) zs = false ->
  let name := Zone.name (desired plan) in
  let self1 := with_sent [zone_create_request name (_account self0)] self0 in
  _apply server fuel plan self
  = match (_post server "/v2/zones"
                 (Some (zone_create_body name (_account self0))) self0).1 with
    | Ok _ =>
        (_ ← apply_changes server fuel (_force_root_ns_update (changes plan));
         pop_zone_records name) (seeded name zs self1)
    | Raise e => (Raise e, self1)
    | Diverge => (Diverge, self1)
    end.
Proof.
  intros Hz Hin name self1. unfold _apply. cbv zeta.
  rewrite (bind_ok _ _ _ _ _ Hz), Hin. cbn [negb]. fold name.
  rewrite bind_assoc.
  rewrite (bind_ok (gets _account) _ self0 (_account self0) self0 eq_refl).
  rewrite bind_assoc.
  pose proof (_request_state server "POST" "/v2/zones" None None
                (Some (zone_create_body name (_account self0))) true self0)
    as Hs.
  fold (_post server "/v2/zones"
              (Some (zone_create_body name (_account self0)))) in Hs.
  destruct (_post server "/v2/zones"
                  (Some (zone_create_body name (_account self0))) self0)
    as [[payload | e |] s1] eqn:Hp; simpl in Hs; subst s1; fold self1 in Hp;
    cbn [fst].
  - rewrite (bind_ok _ _ _ _ _ Hp), bind_assoc.
    assert (Hz1 : zones server fuel self1 = (Ok zs, self1)).
    { apply zones_cached. simpl. eapply zones_ok; eauto. }
    assert (Ha : zones_append server fuel name self1
                 = (Ok tt, set_zones (Some (zs ++ [JStr name])) self1)).
    { unfold zones_append. rewrite (bind_ok _ _ _ _ _ Hz1). reflexivity. }
    rewrite (bind_ok _ _ _ _ _ Ha), bind_assoc.
    reflexivity.
  - rewrite (bind_raise _ _ _ _ _ Hp). reflexivity.
  - rewrite (bind_diverge _ _ _ _ Hp). reflexivity.
Qed.

End ApplyFacts.






(** ** The cache invariant holds in every state the provider reaches *)

Lemma preserves_bind_trans {A B} (R : Provider -> Provider -> Prop)
    (m : M A) (f : A -> M B) :
  (forall s1 s2 s3, R s1 s2 -> R s2 s3 -> R s1 s3) ->
  preserves R m -> (forall a, preserves R (f a)) -> preserves R (m ≫= f).
Proof.
  intros Htrans Hm Hf self. specialize (Hm self).
  unfold mbind, M_bind. destruct (m self) as [[a | e |] self1]; simpl in *;
    try exact Hm.
  eapply Htrans; [exact Hm | apply Hf].
Qed.

Lemma keeps_cache_wf_trans s1 s2 s3 :
  keeps_cache_wf s1 s2 -> keeps_cache_wf s2 s3 -> keeps_cache_wf s1 s3.
Proof. unfold keeps_cache_wf. auto. Qed.

Lemma frame_keeps_cache_wf self self' :
  frame everywhere self self' -> keeps_cache_wf self self'.
Proof.
  intros (_ & _ & Hz & Hk) Hwf k Hsome. rewrite Hk in Hsome by exact I.
  destruct (Hwf k Hsome) as (zs & Hzs & Hin). exists zs. auto.
Qed.

Lemma name_in_app name zs more :
  name_in name zs = true -> name_in name (zs ++ more) = true.
Proof.
  unfold name_in. rewrite existsb_app. intros ->. reflexivity.
Qed.

Lemma name_in_last name zs : name_in name (zs ++ [JStr name]) = true.
Proof.
  unfold name_in. rewrite existsb_app. simpl. rewrite String.eqb_refl.
  destruct (existsb _ zs); reflexivity.
Qed.

Lemma cache_wf_seeded name zs self :
  _zones self = Some zs -> cache_wf self -> cache_wf (seeded name zs self).
Proof.
  intros Hz Hwf k Hsome. simpl in *. exists (zs ++ [JStr name]).
  split; [reflexivity |].
  destruct (decide (name = k)) as [<- | Hne]; [apply name_in_last |].
  rewrite lookup_insert_ne in Hsome by exact Hne.
  destruct (Hwf k Hsome) as (zs' & Hz' & Hin).
  apply name_in_app. congruence.
Qed.

Section CacheInvariant.

Variable server : Server.
Variable fuel : nat.

Lemma apply_change_keeps_cache_wf change :
  preserves keeps_cache_wf (apply_change server fuel change).
Proof.
  destruct change as [new | existing new | existing]; simpl.
  - intros self. apply frame_keeps_cache_wf, _apply_Create_preserves.
  - intros self. apply frame_keeps_cache_wf, _apply_Update_preserves.
  - unfold _apply_Delete.
    apply preserves_bind_trans; [exact keeps_cache_wf_trans | |].
    + intros self Hwf. apply cache_wf_zone_records. exact Hwf.
    + intros snapshot self. apply frame_keeps_cache_wf.
      apply (preserves_bind everywhere); [apply preserves_lift |].
      intros records. apply delete_scan_preserves.
Qed.

Lemma apply_changes_keeps_cache_wf changes :
  preserves keeps_cache_wf (apply_changes server fuel changes).
Proof.
  induction changes as [| change changes IH]; simpl.
  - intros self Hwf. exact Hwf.
  - apply preserves_bind_trans; [exact keeps_cache_wf_trans | |].
    + apply apply_change_keeps_cache_wf.
    + intros _. exact IH.
Qed.

Lemma pop_zone_records_keeps_cache_wf name :
  preserves keeps_cache_wf (pop_zone_records name).
Proof.
  intros self Hwf k Hsome. simpl in *.
  destruct (decide (name = k)) as [<- | Hne].
  - rewrite lookup_delete_eq in Hsome. destruct Hsome as [x Hx]. discriminate.
  - rewrite lookup_delete_ne in Hsome by exact Hne. apply Hwf. exact Hsome.
Qed.

Lemma cache_wf__apply plan self :
  cache_wf self -> cache_wf (_apply server fuel plan self).2.
Proof.
  intros Hwf.
  assert (Hrun : forall changes',
             preserves keeps_cache_wf
               (_ ← apply_changes server fuel changes';
                pop_zone_records (Zone.name (desired plan)))).
  { intros changes'.
    apply preserves_bind_trans; [exact keeps_cache_wf_trans | |].
    - apply apply_changes_keeps_cache_wf.
    - intros _. apply pop_zone_records_keeps_cache_wf. }
  pose proof (cache_wf_zones server fuel self Hwf) as Hwf0.
  destruct (zones server fuel self) as [[zs | e |] self0] eqn:Hz;
    simpl in Hwf0.
  - destruct (name_in (Zone.name (desired plan)) zs) eqn:Hin.
    + rewrite (_apply_present server fuel plan self zs self0 Hz Hin).
      apply Hrun. exact Hwf0.
    + rewrite (_apply_absent server fuel plan self zs self0 Hz Hin).
      assert (Hwf1 : cache_wf
                       (with_sent
                          [zone_create_request (Zone.name (desired plan))
                                               (_account self0)] self0)).
      { apply (frame_keeps_cache_wf self0); [apply frame_with_sent | exact Hwf0]. }
      destruct (_post server "/v2/zones" _ self0).1; simpl; try exact Hwf1.
      apply Hrun. apply cache_wf_seeded; [| exact Hwf1].
      simpl. eapply zones_ok; eauto.
  - unfold _apply. rewrite (bind_raise _ _ _ _ _ Hz). exact Hwf0.
  - unfold _apply. rewrite (bind_diverge _ _ _ _ Hz). exact Hwf0.
Qed.

End CacheInvariant.

(** * Further properties *)

(** ** Splitting and the structured decoders *)

Lemma string_app_cons c s t : String c s +:+ t = String c (s +:+ t).
Proof. reflexivity. Qed.

Lemma string_app_nil_r s : s +:+ EmptyString = s.
Proof.
  induction s as [| c s IH]; [reflexivity |].
  rewrite string_app_cons, IH. reflexivity.
Qed.

Lemma string_app_assoc s1 s2 s3 : (s1 +:+ s2) +:+ s3 = s1 +:+ (s2 +:+ s3).
Proof.
  induction s1 as [| c s1 IH]; [reflexivity |].
  rewrite !string_app_cons, IH. reflexivity.
Qed.

Lemma no_space_app s1 s2 :
  no_space (s1 +:+ s2) = no_space s1 && no_space s2.
Proof.
  induction s1 as [| c s1 IH]; [reflexivity |].
  rewrite string_app_cons. cbn [no_space]. rewrite IH, andb_assoc.
  reflexivity.
Qed.

(** Reading a run of non-whitespace characters extends the current word. *)
Lemma split_from_run w : forall word s,
  no_space w = true ->
  split_from word (w +:+ s) = split_from (word +:+ w) s.
Proof.
  induction w as [| c w IH]; intros word s Hw.
  - rewrite string_app_nil_r. reflexivity.
  - simpl in Hw. apply andb_true_iff in Hw as [Hc Hw].
    apply negb_true_iff in Hc.
    rewrite string_app_cons. cbn [split_from]. rewrite Hc, IH by exact Hw.
    rewrite string_app_assoc. reflexivity.
Qed.

Lemma split_from_space word s :
  word <> EmptyString ->
  split_from word (String " " s) = word :: split_from EmptyString s.
Proof.
  intros Hw. cbn [split_from].
  change (is_space " ") with true. cbv iota.
  destruct word; [contradiction | reflexivity].
Qed.

Lemma is_word_inv w : is_word w = true -> w <> EmptyString /\ no_space w = true.
Proof.
  unfold is_word. intros H. apply andb_true_iff in H as [Hne Hs].
  split; [| exact Hs]. intros ->. discriminate Hne.
Qed.

(** Splitting the fields joined by single spaces gives the fields back. *)
Lemma str_split_join ws :
  Forall (fun w => is_word w = true) ws -> str_split (str_join ws) = ws.
Proof.
  unfold str_split. induction 1 as [| w ws Hw Hws IH]; [reflexivity |].
  apply is_word_inv in Hw as [Hne Hsp].
  destruct ws as [| w' ws].
  - cbn [str_join]. rewrite <- (string_app_nil_r w) at 1.
    rewrite split_from_run by exact Hsp. simpl.
    destruct w; [contradiction | reflexivity].
  - change (str_join (w :: w' :: ws))
      with (w +:+ String " " (str_join (w' :: ws))).
    rewrite split_from_run by exact Hsp. simpl (EmptyString +:+ w).
    rewrite split_from_space by exact Hne. rewrite IH. reflexivity.
Qed.

Lemma pretty_N_char_no_space x : is_space (pretty_N_char x) = false.
Proof.
  unfold pretty_N_char. repeat case_match; reflexivity.
Qed.

Lemma pretty_N_go_word x : forall s,
  no_space s = true -> (0 < x)%N \/ s <> EmptyString ->
  is_word (pretty_N_go x s) = true.
Proof.
  induction (N.lt_wf_0 x) as [x _ IH]; intros s Hs Hne.
  assert (x = 0 \/ 0 < x)%N as [-> | Hx] by lia.
  - rewrite pretty_N_go_0. unfold is_word. rewrite Hs, andb_true_r.
    destruct Hne as [Hx | Hne]; [lia |].
    destruct s; [contradiction | reflexivity].
  - rewrite pretty_N_go_step by exact Hx. apply IH.
    + apply N.div_lt; lia.
    + simpl. rewrite pretty_N_char_no_space. exact Hs.
    + right. discriminate.
Qed.

Lemma pretty_Z_word (z : Z) : is_word (pretty z) = true.
Proof.
  destruct z as [| p | p].
  - reflexivity.
  - change (pretty (Z.pos p)) with (pretty (N.pos p)).
    unfold pretty, pretty_N. rewrite decide_False by discriminate.
    apply pretty_N_go_word; [reflexivity | left; lia].
  - change (pretty (Z.neg p)) with ("-" +:+ pretty (N.pos p)).
    unfold pretty, pretty_N. rewrite decide_False by discriminate.
    assert (Hpos : (0 < N.pos p)%N) by lia.
    pose proof (pretty_N_go_word (N.pos p) EmptyString eq_refl
                  (or_introl Hpos)) as Hw.
    apply is_word_inv in Hw as [_ Hsp].
    unfold is_word. rewrite string_app_cons. cbn [no_space String.eqb negb andb].
    exact Hsp.
Qed.

Lemma py_field_join ws i w :
  Forall (fun w => is_word w = true) ws -> ws !! i = Some w ->
  py_field (JStr (str_join ws)) i = Ok w.
Proof.
  intros Hws Hi. unfold py_field. rewrite str_split_join by exact Hws.
  rewrite Hi. reflexivity.
Qed.

Lemma mapM_map_ok {A B} (f : JSON -> Outcome B) (g : A -> JSON) (h : A -> B)
    (vs : list A) :
  Forall (fun x => f (g x) = Ok (h x)) vs ->
  mapM f (map g vs) = Ok (map h vs).
Proof.
  induction 1 as [| x vs Hx _ IH]; [reflexivity |].
  cbn [map mapM]. rewrite Hx. cbn [mbind Outcome_bind]. rewrite IH.
  reflexivity.
Qed.

Lemma mapM_raise {A B} (f : A -> Outcome B) pre x post done e :
  mapM f pre = Ok done -> f x = Raise e ->
  mapM f (pre ++ x :: post) = Raise e.
Proof.
  revert done. induction pre as [| y pre IH]; intros done Hpre Hx.
  - cbn [app mapM]. rewrite Hx. reflexivity.
  - cbn [app mapM] in *. destruct (f y) as [b | e' |]; try discriminate Hpre.
    cbn [mbind Outcome_bind] in *.
    destruct (mapM f pre) as [bs | e' |] eqn:E; try discriminate Hpre.
    rewrite (IH bs eq_refl Hx). reflexivity.
Qed.

(** X1.  Decoding the payload that [_contents_for_MX] builds gives the
    preferences, in decimal, and the exchanges back, for exchanges that are
    non-empty and free of whitespace. *)
Theorem mx_decode_encode :
  forall (r : DnsRecord) (vs : list MxValue),
    rdata r = MxValues vs ->
    Forall (fun x => is_word (exchange x) = true) vs ->
    exists payload,
      _contents_for_MX r = Ok payload
      /\ _data_for_MX "MX" payload
         = Ok (JObj [("type", JStr "MX"); ("ttl", JNum (ttl r));
                     ("values",
                      JArr (map (fun x =>
                                   JObj [("preference",
                                          JStr (pretty (preference x)));
                                         ("exchange", JStr (exchange x))])
                                vs))]).
Proof.
  intros r vs Hr Hw. unfold _contents_for_MX. rewrite Hr.
  eexists. split; [reflexivity |].
  unfold _data_for_MX, strs. cbn [py_getitem dict_get String.eqb Ascii.eqb
    Bool.eqb mbind Outcome_bind py_iter].
  rewrite map_map.
  rewrite (mapM_map_ok mx_value_of _
             (fun x => JObj [("preference", JStr (pretty (preference x)));
                             ("exchange", JStr (exchange x))])).
  - reflexivity.
  - eapply Forall_impl; [exact Hw |]. intros x Hx. cbv beta.
    assert (Hws : Forall (fun w => is_word w = true)
                         [pretty (preference x); exchange x]).
    { repeat constructor; [apply pretty_Z_word | exact Hx]. }
    unfold mx_value_of.
    change (pretty (preference x) +:+ " " +:+ exchange x)
      with (str_join [pretty (preference x); exchange x]).
    rewrite (py_field_join _ 0 _ Hws eq_refl).
    rewrite (py_field_join _ 1 _ Hws eq_refl). reflexivity.
Qed.

Lemma mx_decode_encode_witness :
  exists payload,
    _contents_for_MX mx_record = Ok payload
    /\ _data_for_MX "MX" payload
       = Ok (JObj [("type", JStr "MX"); ("ttl", JNum 300);
                   ("values",
                    JArr [JObj [("preference", JStr "10");
                                ("exchange", JStr "smtp-4.unit.tests.")];
                          JObj [("preference", JStr "20");
                                ("exchange", JStr "smtp-2.unit.tests.")]])]).
Proof.
  apply (mx_decode_encode mx_record
           [mkMx 10 "smtp-4.unit.tests."; mkMx 20 "smtp-2.unit.tests."]).
  - reflexivity.
  - repeat constructor.
Defined.

(** X2.  Decoding the payload that [_contents_for_SRV] builds gives the four
    fields of every value back, for targets that are non-empty and free of
    whitespace. *)
Theorem srv_decode_encode :
  forall (r : DnsRecord) (vs : list SrvValue),
    rdata r = SrvValues vs ->
    Forall (fun x => is_word (target x) = true) vs ->
    exists payload,
      _contents_for_SRV r = Ok payload
      /\ _data_for_SRV "SRV" payload
         = Ok (JObj [("type", JStr "SRV"); ("ttl", JNum (ttl r));
                     ("values",
                      JArr (map (fun x =>
                                   JObj [("priority", JStr (pretty (priority x)));
                                         ("weight", JStr (pretty (weight x)));
                                         ("port", JStr (pretty (port x)));
                                         ("target", JStr (target x))])
                                vs))]).
Proof.
  intros r vs Hr Hw. unfold _contents_for_SRV. rewrite Hr.
  eexists. split; [reflexivity |].
  unfold _data_for_SRV, strs. cbn [py_getitem dict_get String.eqb Ascii.eqb
    Bool.eqb mbind Outcome_bind py_iter].
  rewrite map_map.
  rewrite (mapM_map_ok srv_value_of _
             (fun x => JObj [("priority", JStr (pretty (priority x)));
                             ("weight", JStr (pretty (weight x)));
                             ("port", JStr (pretty (port x)));
                             ("target", JStr (target x))])).
  - reflexivity.
  - eapply Forall_impl; [exact Hw |]. intros x Hx. cbv beta.
    assert (Hws : Forall (fun w => is_word w = true)
                         [pretty (priority x); pretty (weight x);
                          pretty (port x); target x]).
    { repeat constructor; try apply pretty_Z_word. exact Hx. }
    unfold srv_value_of.
    change (pretty (priority x) +:+ " " +:+ pretty (weight x) +:+ " " +:+
            pretty (port x) +:+ " " +:+ target x)
      with (str_join [pretty (priority x); pretty (weight x);
                      pretty (port x); target x]).
    rewrite (py_field_join _ 0 _ Hws eq_refl).
    rewrite (py_field_join _ 1 _ Hws eq_refl).
    rewrite (py_field_join _ 2 _ Hws eq_refl).
    rewrite (py_field_join _ 3 _ Hws eq_refl). reflexivity.
Qed.

Lemma srv_decode_encode_witness :
  exists payload,
    _contents_for_SRV srv_record = Ok payload
    /\ _data_for_SRV "SRV" payload
       = Ok (JObj [("type", JStr "SRV"); ("ttl", JNum 600);
                   ("values",
                    JArr [JObj [("priority", JStr "10");
                                ("weight", JStr "20");
                                ("port", JStr "30");
                                ("target", JStr "foo-1.unit.tests.")]])]).
Proof.
  apply (srv_decode_encode srv_record [mkSrv 10 20 30 "foo-1.unit.tests."]).
  - reflexivity.
  - repeat constructor.
Defined.

(** X3.  Decoding the payload that [_contents_for_CAA] builds gives the flags
    and the tag back, and the value without the quote characters at its
    ends: the encoder does not write the quotes that the decoder removes.
    The tag and the value are non-empty and free of whitespace. *)
Theorem caa_decode_encode :
  forall (r : DnsRecord) (vs : list CaaValue),
    rdata r = CaaValues vs ->
    Forall (fun x => is_word (tag x) = true /\ is_word (caa_value x) = true)
           vs ->
    exists payload,
      _contents_for_CAA r = Ok payload
      /\ _data_for_CAA "CAA" payload
         = Ok (JObj [("type", JStr "CAA"); ("ttl", JNum (ttl r));
                     ("values",
                      JArr (map (fun x =>
                                   JObj [("flags", JStr (pretty (flags x)));
                                         ("tag", JStr (tag x));
                                         ("value",
                                          JStr (str_strip quote (caa_value x)))])
                                vs))]).
Proof.
  intros r vs Hr Hw. unfold _contents_for_CAA. rewrite Hr.
  eexists. split; [reflexivity |].
  unfold _data_for_CAA, strs. cbn [py_getitem dict_get String.eqb Ascii.eqb
    Bool.eqb mbind Outcome_bind py_iter].
  rewrite map_map.
  rewrite (mapM_map_ok caa_value_of _
             (fun x => JObj [("flags", JStr (pretty (flags x)));
                             ("tag", JStr (tag x));
                             ("value", JStr (str_strip quote (caa_value x)))])).
  - reflexivity.
  - eapply Forall_impl; [exact Hw |]. intros x [Ht Hv]. cbv beta.
    assert (Hws : Forall (fun w => is_word w = true)
                         [pretty (flags x); tag x; caa_value x]).
    { repeat constructor; [apply pretty_Z_word | exact Ht | exact Hv]. }
    unfold caa_value_of.
    change (pretty (flags x) +:+ " " +:+ tag x +:+ " " +:+ caa_value x)
      with (str_join [pretty (flags x); tag x; caa_value x]).
    rewrite (py_field_join _ 0 _ Hws eq_refl).
    rewrite (py_field_join _ 1 _ Hws eq_refl).
    rewrite (py_field_join _ 2 _ Hws eq_refl). reflexivity.
Qed.

Lemma caa_decode_encode_witness :
  exists payload,
    _contents_for_CAA caa_record = Ok payload
    /\ _data_for_CAA "CAA" payload
       = Ok (JObj [("type", JStr "CAA"); ("ttl", JNum 3600);
                   ("values",
                    JArr [JObj [("flags", JStr "0"); ("tag", JStr "issue");
                                ("value", JStr "ca.unit.tests")]])]).
Proof.
  apply (caa_decode_encode caa_record [mkCaa 0 "issue" "ca.unit.tests"]).
  - reflexivity.
  - repeat constructor.
Defined.

(** X4.  An MX rrset one of whose data strings has fewer than two fields cannot
    be decoded: the decoder raises [IndexError], whatever the other data
    strings are. *)
Theorem mx_decode_too_few_fields :
  forall (_type : string) (records ttl_ : JSON) (pre post : list JSON)
         (s : string) (decoded : list JSON),
    py_getitem records "ttl" = Ok ttl_ ->
    py_getitem records "rdata" = Ok (JArr (pre ++ JStr s :: post)) ->
    mapM mx_value_of pre = Ok decoded ->
    length (str_split s) < 2 ->
    _data_for_MX _type records = Raise IndexError.
Proof.
  intros _type records ttl_ pre post s decoded Ht Hr Hpre Hlen.
  unfold _data_for_MX. rewrite Ht, Hr. cbn [mbind Outcome_bind py_iter].
  rewrite (mapM_raise mx_value_of pre (JStr s) post decoded IndexError Hpre);
    [reflexivity |].
  unfold mx_value_of, py_field.
  destruct (str_split s) as [| f0 [| f1 fs]]; simpl in *;
    first [reflexivity | lia].
Qed.

Lemma mx_decode_too_few_fields_witness :
  _data_for_MX "MX"
    (JObj [("ttl", JNum 300);
           ("rdata", JArr [JStr "10 smtp-1.unit.tests."; JStr "smtp-2."])])
  = Raise IndexError.
Proof.
  apply (mx_decode_too_few_fields "MX" _ (JNum 300)
           [JStr "10 smtp-1.unit.tests."] [] "smtp-2."
           [JObj [("preference", JStr "10");
                  ("exchange", JStr "smtp-1.unit.tests.")]]).
  - reflexivity.
  - reflexivity.
  - reflexivity.
  - vm_compute. lia.
Defined.

(** ** TXT values and the string-valued types *)

Lemma escaped_from_decode v : forall b,
  escaped_from b (str_replace ";" "\;" v) = true.
Proof.
  induction v as [| c v IH]; intros b; [reflexivity |].
  rewrite txt_decode_cons.
  destruct (Ascii.eqb_spec c ";"%char) as [-> | Hne].
  - change ("\;" +:+ str_replace ";" "\;" v)
      with (String "\"%char (String ";"%char (str_replace ";" "\;" v))).
    cbn [escaped_from Ascii.eqb Bool.eqb andb]. apply IH.
  - cbn [escaped_from]. apply Ascii.eqb_neq in Hne. rewrite Hne. apply IH.
Qed.

(** X5.  In the values that [_data_for_TXT] produces every semicolon is
    escaped: none stands at the start of a value or after a character
    other than a backslash. *)
Theorem txt_decode_escapes_every_semicolon :
  forall (_type : string) (records ttl_ : JSON) (vs : list string),
    py_getitem records "ttl" = Ok ttl_ ->
    py_getitem records "rdata" = Ok (strs vs) ->
    exists decoded,
      _data_for_TXT _type records
      = Ok (JObj [("ttl", ttl_); ("type", JStr _type);
                  ("values", strs decoded)])
      /\ length decoded = length vs
      /\ Forall (fun d => semicolons_escaped d = true) decoded.
Proof.
  intros _type records ttl_ vs Ht Hr.
  exists (map (str_replace ";" "\;") vs). split; [| split].
  - unfold _data_for_TXT. rewrite Ht, Hr. cbn [mbind Outcome_bind py_iter strs].
    rewrite mapM_py_str_replace. reflexivity.
  - apply length_map.
  - apply Forall_map, Forall_forall. intros v _. apply escaped_from_decode.
Qed.

Lemma txt_decode_escapes_every_semicolon_witness :
  exists decoded,
    _data_for_TXT "TXT"
      (JObj [("ttl", JNum 600); ("rdata", strs ["v=DKIM1;k=rsa"; ";"])])
    = Ok (JObj [("ttl", JNum 600); ("type", JStr "TXT");
                ("values", strs decoded)])
    /\ length decoded = 2
    /\ Forall (fun d => semicolons_escaped d = true) decoded.
Proof.
  apply (txt_decode_escapes_every_semicolon "TXT"
           (JObj [("ttl", JNum 600); ("rdata", strs ["v=DKIM1;k=rsa"; ";"])])
           (JNum 600) ["v=DKIM1;k=rsa"; ";"]); reflexivity.
Defined.

(** X6.  For the types whose values are lists of strings sent as they are (A,
    AAAA, NS, SPF), decoding the payload that the encoder builds gives the
    TTL and the values back; the [profile] block of an A or AAAA payload
    with several values is not read. *)
Theorem values_decode_encode :
  forall (r : DnsRecord) (vs : list string),
    _type r ∈ ["A"; "AAAA"; "NS"; "SPF"] ->
    rdata r = Values vs ->
    exists path payload,
      _gen_data r = Ok (path, payload)
      /\ _record_for_data (_type r) payload
         = Ok (JObj [("ttl", JNum (ttl r)); ("type", JStr (_type r));
                     ("values", strs vs)]).
Proof.
  intros r vs Ht Hv. unfold _gen_data, _record_for_data.
  assert (Hcases : _type r = "A" \/ _type r = "AAAA" \/ _type r = "NS"
                   \/ _type r = "SPF").
  { repeat (apply elem_of_cons in Ht as [Ht | Ht]; [tauto |]).
    apply elem_of_nil in Ht. contradiction. }
  destruct Hcases as [E | [E | [E | E]]]; rewrite E; cbn [getattr dict_get
    contents_for_table data_for_table String.eqb Ascii.eqb Bool.eqb];
    unfold _contents_for_A, _contents_for_AAAA, _contents_for_NS,
      _contents_for_SPF, _contents_for_multiple_resource_distribution,
      _contents_for_multiple, values; rewrite Hv;
    cbn [mbind Outcome_bind];
    try (destruct (1 <? length vs)%nat);
    eexists _, _; (split; [reflexivity |]); reflexivity.
Qed.

Lemma values_decode_encode_witness :
  exists path payload,
    _gen_data a_record = Ok (path, payload)
    /\ _record_for_data "A" payload
       = Ok (JObj [("ttl", JNum 300); ("type", JStr "A");
                   ("values", strs ["1.2.3.4"])]).
Proof.
  apply (values_decode_encode a_record ["1.2.3.4"]).
  - simpl. constructor.
  - reflexivity.
Defined.

(** X7.  For the single-valued types (CNAME, PTR, ALIAS), decoding the payload
    that the encoder builds gives the TTL and the value back. *)
Theorem value_decode_encode :
  forall (r : DnsRecord) (v : string),
    _type r ∈ ["CNAME"; "PTR"; "ALIAS"] ->
    rdata r = Value v ->
    exists path payload,
      _gen_data r = Ok (path, payload)
      /\ _record_for_data (_type r) payload
         = Ok (JObj [("type", JStr (_type r)); ("ttl", JNum (ttl r));
                     ("value", JStr v)]).
Proof.
  intros r v Ht Hv. unfold _gen_data, _record_for_data.
  assert (Hcases : _type r = "CNAME" \/ _type r = "PTR" \/ _type r = "ALIAS").
  { repeat (apply elem_of_cons in Ht as [Ht | Ht]; [tauto |]).
    apply elem_of_nil in Ht. contradiction. }
  destruct Hcases as [E | [E | E]]; rewrite E; cbn [getattr dict_get
    contents_for_table data_for_table String.eqb Ascii.eqb Bool.eqb];
    unfold _contents_for_PTR, _contents_for_ALIAS, _contents_for_CNAME, value;
    rewrite Hv; cbn [mbind Outcome_bind];
    eexists _, _; (split; [reflexivity |]); reflexivity.
Qed.

Lemma value_decode_encode_witness :
  exists path payload,
    _gen_data cname_record = Ok (path, payload)
    /\ _record_for_data "CNAME" payload
       = Ok (JObj [("type", JStr "CNAME"); ("ttl", JNum 300);
                   ("value", JStr "unit.tests.")]).
Proof.
  apply (value_decode_encode cname_record "unit.tests.").
  - simpl. constructor.
  - reflexivity.
Defined.

(** ** Dispatch tables and paths *)

(** X8.  Every type that the rrtype table maps a label to is a supported type,
    has a decoder and an encoder, and is mapped back to that label: the
    dispatch by type name in [populate] and in [_gen_data] cannot fail for
    a type that came out of the table. *)
Theorem mapped_types_have_handlers :
  forall (label t : string),
    dict_get RECORDS_TO_TYPE label = Some t ->
    t ∈ SUPPORTS
    /\ is_Some (getattr data_for_table t)
    /\ is_Some (getattr contents_for_table t)
    /\ dict_get TYPE_TO_RECORDS t = Some label.
Proof.
  intros label t H. unfold RECORDS_TO_TYPE in H. cbn [dict_get] in H.
  repeat match type of H with
         | (if String.eqb ?k label then _ else _) = _ =>
             destruct (String.eqb_spec k label) as [<- | _];
               [injection H as <-;
                split; [cbv [SUPPORTS TYPE_TO_RECORDS RECORDS_TO_TYPE map fst
                               snd]; repeat constructor |];
                split; [eexists; reflexivity |];
                split; [eexists; reflexivity | reflexivity] |]
         end.
  discriminate H.
Qed.

Lemma mapped_types_have_handlers_witness :
  "ALIAS" ∈ SUPPORTS
  /\ is_Some (getattr data_for_table "ALIAS")
  /\ is_Some (getattr contents_for_table "ALIAS")
  /\ dict_get TYPE_TO_RECORDS "ALIAS" = Some "APEXALIAS (65282)".
Proof.
  apply (mapped_types_have_handlers "APEXALIAS (65282)" "ALIAS").
  reflexivity.
Defined.

Lemma prefix_app p s : String.prefix p (p +:+ s) = true.
Proof.
  induction p as [| c p IH]; [apply prefix_empty |].
  rewrite string_app_cons, prefix_cons, Ascii.eqb_refl. exact IH.
Qed.

Lemma str_drop_app p s : str_drop (String.length p) (p +:+ s) = s.
Proof.
  induction p as [| c p IH]; [reflexivity |].
  rewrite string_app_cons. exact IH.
Qed.

Lemma _remove_prefix_app p s : _remove_prefix (p +:+ s) p = s.
Proof.
  unfold _remove_prefix. rewrite prefix_app. apply str_drop_app.
Qed.

(** The zone name that [_gen_data] and [_apply_Delete] take out of the
    fqdn is the name of the record's zone. *)
Lemma zone_name_of_fqdn name zone_name :
  (name = EmptyString -> String.prefix "." zone_name = false) ->
  _remove_prefix (fqdn_of name zone_name) (name +:+ ".") = zone_name.
Proof.
  intros Hroot. destruct name as [| c name].
  - unfold fqdn_of, _remove_prefix.
    change (EmptyString +:+ ".") with ".". rewrite Hroot; reflexivity.
  - unfold fqdn_of.
    rewrite <- (string_app_assoc (String c name) "." zone_name).
    apply _remove_prefix_app.
Qed.

(** X9.  For a record whose fqdn is made of its name and its zone's name, the
    path that [_gen_data] builds is the rrset path of that zone, wire type
    and fqdn, and it is the path at which [_apply_Delete] deletes. *)
Theorem rrset_path_of_record :
  forall (r : DnsRecord),
    fqdn r = fqdn_of (name r) (Zone.name (zone r)) ->
    (name r = EmptyString -> String.prefix "." (Zone.name (zone r)) = false) ->
    delete_path r = rrset_path (Zone.name (zone r)) (_type r) (fqdn r)
    /\ forall path payload,
         _gen_data r = Ok (path, payload) -> path = delete_path r.
Proof.
  intros r Hf Hroot. split.
  - unfold delete_path, rrset_path, wire_type.
    rewrite Hf at 1. rewrite zone_name_of_fqdn by exact Hroot.
    rewrite !string_app_assoc. reflexivity.
  - intros path payload. unfold _gen_data, delete_path.
    destruct (getattr contents_for_table (_type r)) as [f |];
      [| discriminate].
    destruct (f r) as [c | e |]; cbn [mbind Outcome_bind]; try discriminate.
    intros [= <- _]. rewrite !string_app_assoc. reflexivity.
Qed.

Lemma rrset_path_of_record_witness :
  delete_path cname_record = "/v2/zones/unit.tests./rrsets/CNAME/cname.unit.tests.".
Proof.
  destruct (rrset_path_of_record cname_record) as [H _].
  - reflexivity.
  - discriminate.
  - exact H.
Defined.

(** ** Transport: the 404 answers that are not the "no zones" answer *)

(** X10.  A 404 whose decoded body has one item without being the "no zones"
    body does not raise the HTTP error: an object with a single key raises
    [KeyError] on the index 0, and a one-element array of an object
    without [errorCode] raises [KeyError] on that key.  An object with any
    other number of keys raises the HTTP error with status, reason and
    body. *)
Theorem not_found_body_of_length_one :
  forall (server : Server) m p ps d j (self : Provider),
    let resp := server (sent self ++ [mkRequest m p ps d j]) in
    status_code resp = 404%Z ->
    (forall o, json_body resp = Some (JObj o) -> length o = 1 ->
               (_request server m p ps d j true self).1
               = Raise (KeyError (JNum 0)))
    /\ (forall o, json_body resp = Some (JArr [JObj o]) ->
                  dict_get o "errorCode" = None ->
                  (_request server m p ps d j true self).1
                  = Raise (KeyError (JStr "errorCode")))
    /\ (forall o, json_body resp = Some (JObj o) -> length o <> 1 ->
                  (_request server m p ps d j true self).1
                  = Raise (HTTPError 404 (reason resp) (text resp))).
Proof.
  intros server m p ps d j self resp H4.
  split; [| split]; intros o Hb Ho; unfold _request; fold resp;
    rewrite H4, Hb; cbn [Z.eqb Pos.eqb]; unfold no_zones_body;
    rewrite H4; cbn [Z.eqb Pos.eqb py_len mbind Outcome_bind].
  - rewrite Ho. reflexivity.
  - cbn [length Nat.eqb py_getitem_int lookup list_lookup py_getitem
         mbind Outcome_bind]. rewrite Ho. reflexivity.
  - apply Nat.eqb_neq in Ho. rewrite Ho.
    unfold raise_for_status. rewrite H4. reflexivity.
Qed.

Lemma not_found_body_of_length_one_witness :
  (_request (fun _ => mkResponse 404 "Not Found" "{}"
                        (Some (JObj [("errorMessage", JStr "Not found")])))
            "GET" "/v3/zones" None None None true (initial "acct")).1
  = Raise (KeyError (JNum 0)).
Proof.
  destruct (not_found_body_of_length_one
              (fun _ => mkResponse 404 "Not Found" "{}"
                          (Some (JObj [("errorMessage", JStr "Not found")])))
              "GET" "/v3/zones" None None None (initial "acct") eq_refl)
    as [H _].
  apply (H [("errorMessage", JStr "Not found")]); reflexivity.
Defined.

(** ** Zone lister: what escapes, what is cached, when it ends *)

Lemma not_no_zones_bind {A B} (m : Outcome A) (f : A -> Outcome B) :
  not_no_zones m -> (forall a, not_no_zones (f a)) -> not_no_zones (m ≫= f).
Proof.
  intros Hm Hf. destruct m as [a | e |]; cbn [mbind Outcome_bind];
    [apply Hf | | discriminate].
  intros H. apply Hm. injection H as ->. reflexivity.
Qed.

Lemma not_no_zones_getitem x k : not_no_zones (py_getitem x k).
Proof.
  unfold py_getitem. destruct x; try discriminate.
  destruct (dict_get fields k); discriminate.
Qed.

Lemma not_no_zones_iter x : not_no_zones (py_iter x).
Proof. destruct x; discriminate. Qed.

Lemma not_no_zones_contains k x : not_no_zones (py_contains k x).
Proof. destruct x; discriminate. Qed.

Lemma not_no_zones_zones_page resp acc : not_no_zones (zones_page resp acc).
Proof.
  unfold zones_page.
  apply not_no_zones_bind; [apply not_no_zones_getitem | intros zs].
  apply not_no_zones_bind; [apply not_no_zones_iter | intros new].
  apply not_no_zones_bind; [apply not_no_zones_getitem | intros info].
  apply not_no_zones_bind; [apply not_no_zones_contains | intros [|]];
    [| discriminate].
  apply not_no_zones_bind; [apply not_no_zones_getitem | intros info'].
  apply not_no_zones_bind; [apply not_no_zones_getitem | intros next].
  discriminate.
Qed.

Lemma not_no_zones_mapM {A B} (f : A -> Outcome B) (l : list A) :
  (forall a, not_no_zones (f a)) -> not_no_zones (mapM f l).
Proof.
  intros Hf. induction l as [| a l IH]; [discriminate |].
  cbn [mapM]. apply not_no_zones_bind; [apply Hf | intros b].
  apply not_no_zones_bind; [exact IH | intros bs]. discriminate.
Qed.

Lemma not_no_zones_zones_paging server n : forall data acc self,
  not_no_zones (zones_paging server n data acc self).1.
Proof.
  induction n as [| n IH]; intros data acc self; [discriminate |].
  rewrite zones_paging_S.
  destruct (_get server "/v3/zones" (Some data) self) as [[resp | e |] self1].
  - pose proof (not_no_zones_zones_page resp acc) as Hp.
    destruct (zones_page resp acc) as [[zones' [next |]] | e |];
      cbn [fst]; first [apply IH | discriminate | idtac].
    intros H. apply Hp. injection H as ->. reflexivity.
  - destruct e; discriminate.
  - discriminate.
Qed.

(** X11.  The "no zones" exception never comes out of [zones]: from whichever
    page it is raised, it ends the paging and is not passed on. *)
Theorem zones_never_raises_no_zones :
  forall (server : Server) (fuel : nat) (self : Provider),
    (zones server fuel self).1 <> Raise UltraNoZonesExistException.
Proof.
  intros server fuel self. unfold zones.
  destruct (_zones self); [discriminate |].
  match goal with
  | |- context [zones_paging server fuel ?d ?a self] =>
      pose proof (not_no_zones_zones_paging server fuel d a self) as Hp;
      destruct (zones_paging server fuel d a self) as [[zones | e |] self1]
  end; cbn [fst] in *; [| exact Hp | discriminate].
  assert (Hn : not_no_zones (mapM properties_name zones)).
  { apply not_no_zones_mapM. intros z. unfold properties_name.
    apply not_no_zones_bind; [apply not_no_zones_getitem | intros q].
    apply not_no_zones_getitem. }
  destruct (mapM properties_name zones) as [names | e |];
    first [discriminate | idtac].
  cbn [fst]. intros H. apply Hn. injection H as ->. reflexivity.
Qed.

Lemma with_sent_nil self : with_sent [] self = self.
Proof. destruct self. unfold with_sent. simpl. rewrite app_nil_r. reflexivity. Qed.

Lemma zones_paging_state server n : forall data acc self,
  exists reqs, (zones_paging server n data acc self).2 = with_sent reqs self.
Proof.
  induction n as [| n IH]; intros data acc self.
  - exists []. rewrite with_sent_nil. reflexivity.
  - rewrite zones_paging_S. unfold _get.
    pose proof (_request_state server "GET" "/v3/zones" (Some data) None None
                  true self) as Hs.
    destruct (_request server "GET" "/v3/zones" (Some data) None None true self)
      as [[resp | e |] self1]; cbn [snd] in Hs; subst self1.
    + destruct (zones_page resp acc) as [[zones' [next |]] | e |];
        try (eexists; reflexivity).
      destruct (IH (dict_set data "cursor" next) zones'
                   (with_sent [mkRequest "GET" "/v3/zones" (Some data) None None]
                              self)) as [reqs Hr].
      rewrite Hr, with_sent_app. eexists. reflexivity.
    + destruct e; eexists; reflexivity.
    + eexists. reflexivity.
Qed.

(** X12.  The zone list is fetched once: after a call that returned, a further
    call returns the same list and sends nothing.  A call that raised has
    cached nothing, so that the next one fetches again. *)
Theorem zones_cached_after_success :
  forall (server : Server) (fuel : nat) (self self1 : Provider),
    (forall zs, zones server fuel self = (Ok zs, self1) ->
                zones server fuel self1 = (Ok zs, self1))
    /\ (forall e, zones server fuel self = (Raise e, self1) ->
                  _zones self = None /\ _zones self1 = None).
Proof.
  intros server fuel self self1. split.
  - intros zs H. apply zones_cached. eapply zones_ok. exact H.
  - intros e H. unfold zones in H.
    destruct (_zones self) as [zs |] eqn:Hz; [discriminate H |].
    split; [reflexivity |].
    match type of H with
    | context [zones_paging server fuel ?d ?a self] =>
        destruct (zones_paging_state server fuel d a self) as [reqs Hs];
        destruct (zones_paging server fuel d a self)
          as [[zones | e' |] self2]
    end; cbn [snd] in Hs; subst self2.
    + destruct (mapM properties_name zones); try discriminate H.
      injection H as _ <-. exact Hz.
    + injection H as _ <-. exact Hz.
    + discriminate H.
Qed.

Lemma zones_cached_after_success_witness :
  zones two_pages 3 (zones two_pages 3 (initial "testacct")).2
  = (Ok [JStr "testzone123.com."; JStr "testzone456.com."],
     (zones two_pages 3 (initial "testacct")).2).
Proof.
  destruct (zones_cached_after_success two_pages 3 (initial "testacct")
              (zones two_pages 3 (initial "testacct")).2) as [H _].
  apply H. reflexivity.
Defined.

Lemma _get_http_error server p ps self payload :
  let resp := server (sent self ++ [mkRequest "GET" p ps None None]) in
  is_http_error resp -> json_body resp = Some payload ->
  _get server p ps self
  = (Raise (HTTPError (status_code resp) (reason resp) (text resp)),
     with_sent [mkRequest "GET" p ps None None] self).
Proof.
  intros resp (Hrange & H1 & H4) Hb.
  pose proof (_request_other_status server "GET" p ps None None self payload
                H1 H4 Hb) as Ho.
  pose proof (_request_state server "GET" p ps None None true self) as Hs.
  unfold _get.
  destruct (_request server "GET" p ps None None true self) as [o self1].
  cbn [fst snd] in *. subst self1. rewrite Ho. fold resp.
  unfold raise_for_status.
  replace ((400 <=? status_code resp)%Z && (status_code resp <? 600)%Z)
    with true; [reflexivity |].
  symmetry. apply andb_true_iff. split; [apply Z.leb_le | apply Z.ltb_lt]; lia.
Qed.

Lemma zones_paging_serves_then server pages : forall last cursor acc self n payload,
  serves_then server (sent self) cursor pages last ->
  is_http_error last -> json_body last = Some payload ->
  length pages < n ->
  zones_paging server n (zones_data cursor) acc self
  = (Raise (HTTPError (status_code last) (reason last) (text last)),
     with_sent (zones_request cursor
                :: map (fun p => zones_request (Some p.2)) pages) self).
Proof.
  induction pages as [| [zs next] pages IH];
    intros last cursor acc self n payload Hs He Hb Hn;
    (destruct n as [| n]; [simpl in Hn; lia |]);
    rewrite zones_paging_S.
  - simpl in Hs. subst last.
    rewrite (_get_http_error server _ _ self payload He Hb). reflexivity.
  - simpl in Hs. destruct Hs as [Hp Hs].
    apply _get_zones_page in Hp as (o & info & -> & Hz & Hi & Hx).
    rewrite (zones_page_next o info zs (Some next)) by assumption.
    rewrite zones_data_set.
    rewrite (IH last (Some next) (acc ++ zs)
                (with_sent [zones_request cursor] self) n payload)
      by (simpl in *; first [assumption | lia]).
    rewrite with_sent_app. reflexivity.
Qed.

(** X13.  When a request of the zone listing is answered with an HTTP error
    (a 4xx or 5xx other than 401 and 404, with a body that decodes),
    [zones] raises it with the status, the reason and the body; the zones
    of the pages before are dropped and nothing is cached. *)
Theorem zones_http_error_is_raised :
  forall (server : Server) (fuel : nat) (self : Provider)
         (pages : list (list JSON * JSON)) (last : Response) (payload : JSON),
    _zones self = None ->
    serves_then server (sent self) None pages last ->
    is_http_error last -> json_body last = Some payload ->
    length pages < fuel ->
    zones server fuel self
    = (Raise (HTTPError (status_code last) (reason last) (text last)),
       with_sent (zones_requests pages) self)
    /\ _zones (zones server fuel self).2 = None.
Proof.
  intros server fuel self pages last payload Hz Hs He Hb Hf.
  assert (E : zones server fuel self
              = (Raise (HTTPError (status_code last) (reason last) (text last)),
                 with_sent (zones_requests pages) self)).
  { unfold zones. rewrite Hz.
    change [("limit", JNum ZONE_REQUEST_LIMIT); ("q", JStr "zone_type:PRIMARY")]
      with (zones_data None).
    rewrite (zones_paging_serves_then server pages last None [] self fuel
               payload Hs He Hb Hf). reflexivity. }
  split; [exact E | rewrite E; exact Hz].
Qed.

Lemma zones_http_error_is_raised_witness :
  zones bad_request 1 (initial "testacct")
  = (Raise (HTTPError 400 "Bad Request" "{}"),
     mkProvider [zones_request None] "testacct" None ∅).
Proof.
  apply (zones_http_error_is_raised bad_request 1 (initial "testacct") []
           (bad_request [])
           (JObj [("errorCode", JNum 60004);
                  ("errorMessage", JStr "Authorization Header required")])).
  - reflexivity.
  - reflexivity.
  - unfold is_http_error. simpl. lia.
  - reflexivity.
  - simpl. lia.
Defined.

Lemma zones_paging_endless server :
  (forall hist, exists zs next, is_zones_page (server hist) zs (Some next)) ->
  forall n data acc self, (zones_paging server n data acc self).1 = Diverge.
Proof.
  intros Hall. induction n as [| n IH]; intros data acc self; [reflexivity |].
  rewrite zones_paging_S.
  destruct (Hall (sent self ++ [mkRequest "GET" "/v3/zones" (Some data) None None]))
    as (zs & next & H2 & o & info & Hb & Hz & Hi & Hx).
  rewrite (_get_200 server _ _ self (JObj o) H2 Hb).
  rewrite (zones_page_next o info zs (Some next) acc Hz Hi Hx).
  apply IH.
Qed.

(** X14.  The zone listing ends only at a page without [next] (or at an
    exception): against a vendor all of whose pages announce a further
    one, [zones] does not return, however long it runs. *)
Theorem zones_needs_a_last_page :
  forall (server : Server) (self : Provider),
    _zones self = None ->
    (forall hist, exists zs next, is_zones_page (server hist) zs (Some next)) ->
    forall fuel, (zones server fuel self).1 = Diverge.
Proof.
  intros server self Hz Hall fuel. unfold zones. rewrite Hz.
  match goal with
  | |- context [zones_paging server fuel ?d ?a self] =>
      pose proof (zones_paging_endless server Hall fuel d a self) as Hd;
      destruct (zones_paging server fuel d a self) as [o self1]
  end.
  cbn [fst] in Hd. subst o. reflexivity.
Qed.

Lemma zones_needs_a_last_page_witness :
  (zones endless 50 (initial "testacct")).1 = Diverge.
Proof.
  apply (zones_needs_a_last_page endless (initial "testacct")).
  - reflexivity.
  - intros hist. exists [], (JStr "more").
    split; [reflexivity |]. eexists _, _. repeat split.
Defined.

(** ** Record fetcher: paging, caching, exceptions *)

Lemma rrsets_page_counts d info (p : RrsetsPage) (offset : Z) acc :
  dict_get d "rrSets" = Some (JArr (page_rrsets p)) ->
  dict_get d "resultInfo" = Some (JObj info) ->
  dict_get info "offset" = Some (JNum (page_offset p)) ->
  dict_get info "returnedCount" = Some (JNum (page_returned p)) ->
  dict_get info "totalCount" = Some (JNum (page_total p)) ->
  rrsets_page (JObj d) (JNum offset) acc
  = Ok (acc ++ page_rrsets p,
        if (page_offset p + page_returned p <? page_total p)%Z
        then Some (JNum (offset + page_returned p)) else None).
Proof.
  intros Hr Hi Ho Hc Ht. unfold rrsets_page, py_getitem.
  rewrite Hr, Hi. cbn [mbind Outcome_bind py_iter]. rewrite Ho, Hc, Ht.
  cbn [mbind Outcome_bind py_add py_lt py_int].
  destruct (page_offset p + page_returned p <? page_total p)%Z; reflexivity.
Qed.

Lemma rrsets_paging_S server n path offset acc self :
  rrsets_paging server (S n) path offset acc self
  = match _get server path
                (Some [("offset", offset); ("limit", JNum RRSET_REQUEST_LIMIT)])
                self with
    | (Ok resp, self') =>
        match rrsets_page resp offset acc with
        | Ok (records', Some offset') =>
            rrsets_paging server n path offset' records' self'
        | Ok (records', None) => (Ok records', self')
        | Raise e => (Raise e, self')
        | Diverge => (Diverge, self')
        end
    | (Raise e, self') => (Raise e, self')
    | (Diverge, self') => (Diverge, self')
    end.
Proof. reflexivity. Qed.

Lemma _get_rrsets_page server zone_name offset self p :
  is_rrsets_page (server (sent self ++ [rrsets_request zone_name offset])) p ->
  forall acc,
  exists resp,
    _get server ("/v2/zones/" +:+ zone_name +:+ "/rrsets")
         (Some [("offset", JNum offset); ("limit", JNum RRSET_REQUEST_LIMIT)])
         self
    = (Ok resp, with_sent [rrsets_request zone_name offset] self)
    /\ rrsets_page resp (JNum offset) acc
       = Ok (acc ++ page_rrsets p,
             if (page_offset p + page_returned p <? page_total p)%Z
             then Some (JNum (offset + page_returned p)) else None).
Proof.
  intros (H2 & d & info & Hb & Hr & Hi & Ho & Hc & Ht) acc.
  exists (JObj d). split.
  - apply (_get_200 server _ _ self (JObj d)); assumption.
  - apply (rrsets_page_counts d info); assumption.
Qed.

Lemma rrsets_paging_serves server zone_name pages : forall last offset acc self n,
  serves_rrsets server (sent self) zone_name offset pages last ->
  length pages < n ->
  rrsets_paging server n ("/v2/zones/" +:+ zone_name +:+ "/rrsets")
                (JNum offset) acc self
  = (Ok (acc ++ served_rrsets pages last),
     with_sent (rrsets_requests zone_name offset pages) self).
Proof.
  induction pages as [| p pages IH]; intros last offset acc self n Hs Hn;
    (destruct n as [| n]; [simpl in Hn; lia |]);
    rewrite rrsets_paging_S.
  - destruct Hs as [Hp Hlast].
    destruct (_get_rrsets_page server zone_name offset self last Hp acc)
      as (resp & -> & ->).
    unfold more_after in Hlast. apply Z.ltb_nlt in Hlast. rewrite Hlast.
    reflexivity.
  - destruct Hs as (Hp & Hmore & Hs).
    destruct (_get_rrsets_page server zone_name offset self p Hp acc)
      as (resp & -> & ->).
    unfold more_after in Hmore. apply Z.ltb_lt in Hmore. rewrite Hmore.
    rewrite (IH last (offset + page_returned p)%Z (acc ++ page_rrsets p)
                (with_sent [rrsets_request zone_name offset] self) n)
      by (simpl in *; first [assumption | lia]).
    rewrite with_sent_app. unfold served_rrsets. simpl.
    rewrite <- !app_assoc. reflexivity.
Qed.

(** X15.  For a listed zone without cached rrsets, when the vendor serves the
    rrsets in pages, each but the last announcing more by its counts,
    [zone_records] sends one request per page, the first from offset 0 and
    each further one from the offset advanced by the count the previous
    page returned; it returns the rrsets of all pages in order and caches
    them under the zone's name. *)
Theorem zone_records_pages_concatenated :
  forall (server : Server) (fuel : nat) (z : Zone.t) (self self0 : Provider)
         (zs : list JSON) (pages : list RrsetsPage) (last : RrsetsPage),
    _zone_records self !! Zone.name z = None ->
    zones server fuel self = (Ok zs, self0) ->
    name_in (Zone.name z) zs = true ->
    serves_rrsets server (sent self0) (Zone.name z) 0 pages last ->
    length pages < fuel ->
    zone_records server fuel z self
    = (Ok (JArr (served_rrsets pages last)),
       set_zone_records
         (<[Zone.name z := JArr (served_rrsets pages last)]>
            (_zone_records self0))
         (with_sent (rrsets_requests (Zone.name z) 0 pages) self0)).
Proof.
  intros server fuel z self self0 zs pages last Hc Hz Hin Hs Hf.
  unfold zone_records. rewrite Hc, Hz, Hin. cbn [negb].
  rewrite (rrsets_paging_serves server (Zone.name z) pages last 0 [] self0
             fuel Hs Hf).
  reflexivity.
Qed.

Lemma zone_records_pages_concatenated_witness :
  zone_records small_pages 2 (Zone.mk "unit.tests.") listed
  = (Ok (JArr [soa_entry; a_entry; tlsa_entry "a.unit.tests."]),
     mkProvider [rrsets_request "unit.tests." 0; rrsets_request "unit.tests." 2]
                "testacct" (Some [JStr "unit.tests."])
                (<["unit.tests." :=
                     JArr [soa_entry; a_entry; tlsa_entry "a.unit.tests."]]> ∅)).
Proof.
  apply (zone_records_pages_concatenated small_pages 2 (Zone.mk "unit.tests.")
           listed listed [JStr "unit.tests."] [first_page] second_page).
  - reflexivity.
  - reflexivity.
  - reflexivity.
  - simpl. unfold more_after. simpl.
    repeat split; try lia; eexists _, _; repeat split.
  - simpl. lia.
Defined.

(** X16.  The rrsets of a zone are fetched once: after a call of [zone_records]
    that returned, a further call for the same zone returns the same
    rrsets and sends nothing, whether the zone is listed or not. *)
Theorem zone_records_cached_after_success :
  forall (server : Server) (fuel : nat) (z : Zone.t) (self self1 : Provider)
         (records : JSON),
    zone_records server fuel z self = (Ok records, self1) ->
    zone_records server fuel z self1 = (Ok records, self1).
Proof.
  intros server fuel z self self1 records H. unfold zone_records in H.
  destruct (_zone_records self !! Zone.name z) as [c |] eqn:Hc.
  - injection H as <- <-. unfold zone_records. rewrite Hc. reflexivity.
  - pose proof (zones_records_unchanged server fuel self) as Hrec.
    destruct (zones server fuel self) as [[zs | e |] self0] eqn:Hz;
      try discriminate H.
    cbn [snd] in Hrec. apply zones_ok in Hz.
    destruct (name_in (Zone.name z) zs) eqn:Hin; cbn [negb] in H.
    + destruct (rrsets_paging server fuel _ (JNum 0) [] self0)
        as [[rs | e |] self2]; try discriminate H.
      injection H as <- <-. unfold zone_records. cbn [_zone_records
        set_zone_records]. rewrite lookup_insert_eq. reflexivity.
    + injection H as <- <-. unfold zone_records.
      rewrite Hrec, Hc, (zones_cached server fuel self0 zs Hz), Hin.
      reflexivity.
Qed.

Lemma zone_records_cached_after_success_witness :
  zone_records small_pages 2 (Zone.mk "unit.tests.")
               (zone_records small_pages 2 (Zone.mk "unit.tests.") listed).2
  = (Ok (JArr [soa_entry; a_entry; tlsa_entry "a.unit.tests."]),
     (zone_records small_pages 2 (Zone.mk "unit.tests.") listed).2).
Proof.
  apply (zone_records_cached_after_success small_pages 2
           (Zone.mk "unit.tests.") listed).
  reflexivity.
Defined.

(** X17.  [zone_records] has no handler for the "no zones" exception: when the
    vendor answers the first rrsets request of a listed zone with the 404
    and the 70002 body, the exception is passed on to the caller and no
    cache entry is made. *)
Theorem zone_records_raises_no_zones :
  forall (server : Server) (fuel : nat) (z : Zone.t) (self self0 : Provider)
         (zs : list JSON),
    _zone_records self !! Zone.name z = None ->
    zones server (S fuel) self = (Ok zs, self0) ->
    name_in (Zone.name z) zs = true ->
    is_no_zones (server (sent self0 ++ [rrsets_request (Zone.name z) 0])) ->
    zone_records server (S fuel) z self
    = (Raise UltraNoZonesExistException,
       with_sent [rrsets_request (Zone.name z) 0] self0)
    /\ _zone_records (zone_records server (S fuel) z self).2 !! Zone.name z
       = None.
Proof.
  intros server fuel z self self0 zs Hc Hz Hin Hno.
  assert (E : zone_records server (S fuel) z self
              = (Raise UltraNoZonesExistException,
                 with_sent [rrsets_request (Zone.name z) 0] self0)).
  { unfold zone_records. rewrite Hc, Hz, Hin. cbn [negb].
    rewrite rrsets_paging_S.
    pose proof (_get_no_zones server
                  ("/v2/zones/" +:+ Zone.name z +:+ "/rrsets")
                  (Some [("offset", JNum 0);
                         ("limit", JNum RRSET_REQUEST_LIMIT)])
                  self0 Hno) as Hg.
    rewrite Hg. reflexivity. }
  split; [exact E |]. rewrite E. cbn [snd with_sent _zone_records].
  pose proof (zones_records_unchanged server (S fuel) self) as Hrec.
  rewrite Hz in Hrec. cbn [snd] in Hrec. rewrite Hrec. exact Hc.
Qed.

Lemma zone_records_raises_no_zones_witness :
  zone_records no_zones 1 (Zone.mk "unit.tests.") listed
  = (Raise UltraNoZonesExistException,
     mkProvider [rrsets_request "unit.tests." 0] "testacct"
                (Some [JStr "unit.tests."]) ∅).
Proof.
  apply (zone_records_raises_no_zones no_zones 0 (Zone.mk "unit.tests.")
           listed listed [JStr "unit.tests."]).
  - reflexivity.
  - reflexivity.
  - reflexivity.
  - split; [reflexivity |]. eexists _, _. repeat split.
Defined.

(** ** Applier: what each change sends *)

(** X18.  A Create and an Update of a record send one request each, to the same
    path and with the same payload, the one by POST and the other by PUT;
    they raise what the request raises.  When the payload cannot be built,
    nothing is sent. *)
Theorem create_and_update_send_one_request :
  forall (server : Server) (new : DnsRecord) (self : Provider),
    (forall path content,
        _gen_data new = Ok (path, content) ->
        _apply_Create server new self
        = (_ ← (_post server path (Some content) self).1; Ok tt,
           with_sent [mkRequest "POST" path None None (Some content)] self)
        /\ _apply_Update server new self
           = (_ ← (_put server path (Some content) self).1; Ok tt,
              with_sent [mkRequest "PUT" path None None (Some content)] self))
    /\ (forall e,
           _gen_data new = Raise e ->
           _apply_Create server new self = (Raise e, self)
           /\ _apply_Update server new self = (Raise e, self)).
Proof.
  intros server new self. split.
  - intros path content Hg. unfold _apply_Create, _apply_Update, lift.
    unfold mbind at 1 3. unfold M_bind at 1 3. rewrite Hg.
    pose proof (_request_state server "POST" path None None (Some content)
                  true self) as Hpost.
    pose proof (_request_state server "PUT" path None None (Some content)
                  true self) as Hput.
    unfold _post, _put, mbind, M_bind.
    destruct (_request server "POST" path None None (Some content) true self)
      as [[x | e |] s1];
      destruct (_request server "PUT" path None None (Some content) true self)
      as [[y | e' |] s2];
      cbn [fst snd] in *; subst s1 s2; split; reflexivity.
  - intros e Hg. unfold _apply_Create, _apply_Update, lift, mbind, M_bind.
    rewrite Hg. split; reflexivity.
Qed.

Lemma create_and_update_send_one_request_witness :
  _apply_Create accepting cname_record listed
  = (Ok tt,
     with_sent [mkRequest "POST"
                  "/v2/zones/unit.tests./rrsets/CNAME/cname.unit.tests."
                  None None
                  (Some (JObj [("ttl", JNum 300);
                               ("rdata", strs ["unit.tests."])]))] listed).
Proof.
  destruct (create_and_update_send_one_request accepting cname_record listed)
    as [H _].
  destruct (H "/v2/zones/unit.tests./rrsets/CNAME/cname.unit.tests."
              (JObj [("ttl", JNum 300); ("rdata", strs ["unit.tests."])])
              eq_refl) as [Hc _].
  exact Hc.
Defined.

Lemma matches_delete_match existing entry :
  matches existing entry ->
  exists label,
    py_getitem entry "rrtype" = Ok (JStr label)
    /\ String.eqb label "SOA (6)" = false
    /\ delete_match existing entry = Ok true.
Proof.
  intros (Ho & label & Hr & Ht). exists label. split; [exact Hr |]. split.
  - destruct (String.eqb_spec label "SOA (6)") as [-> | _]; [| reflexivity].
    discriminate Ht.
  - unfold delete_match. rewrite Ho. cbn [mbind Outcome_bind py_eq_str].
    rewrite String.eqb_refl, Hr. cbn [mbind Outcome_bind records_to_type].
    rewrite Ht. cbn [mbind Outcome_bind]. rewrite String.eqb_refl.
    reflexivity.
Qed.

Lemma passed_over_no_hit existing records :
  Forall (passed_over existing) records ->
  Forall (fun r => exists rrtype,
              py_getitem r "rrtype" = Ok rrtype
              /\ (py_eq_str rrtype "SOA (6)" = true
                  \/ delete_match existing r = Ok false)) records.
Proof.
  intros Hall. eapply Forall_impl; [exact Hall |].
  intros entry (label & owner & Hr & Ho & Hcase). exists (JStr label).
  split; [exact Hr |]. cbn [py_eq_str].
  destruct (String.eqb_spec label "SOA (6)") as [-> | Hne]; [left; reflexivity |].
  right. unfold delete_match. rewrite Ho. cbn [mbind Outcome_bind].
  destruct Hcase as [-> | [-> | (t & Ht & Hneq)]];
    [congruence | reflexivity |].
  destruct (py_eq_str owner (fqdn existing)); [| reflexivity].
  rewrite Hr. cbn [mbind Outcome_bind records_to_type]. rewrite Ht.
  cbn [mbind Outcome_bind]. f_equal. apply String.eqb_neq. congruence.
Qed.

(** X19.  When one entry of the snapshot is the rrset of the record and all
    others are passed over, [_apply_Delete] sends exactly one request, the
    DELETE of the record's rrset path.  The answer is not decoded: unless
    its status is 401 the outcome only depends on the status, and an
    answer without a body is accepted. *)
Theorem delete_sends_one_request :
  forall (server : Server) (fuel : nat) (existing : DnsRecord)
         (self self1 : Provider) (snapshot : JSON)
         (pre post : list JSON) (entry : JSON),
    zone_records server fuel (zone existing) self = (Ok snapshot, self1) ->
    py_iter snapshot = Ok (pre ++ entry :: post) ->
    Forall (passed_over existing) pre ->
    matches existing entry ->
    Forall (passed_over existing) post ->
    let resp := server (sent self1 ++ [delete_request existing]) in
    status_code resp <> 401%Z ->
    _apply_Delete server fuel existing self
    = (raise_for_status resp, with_sent [delete_request existing] self1).
Proof.
  intros server fuel existing self self1 snapshot pre post entry
         Hz Hi Hpre Hm Hpost resp H1.
  rewrite (_apply_Delete_scan server fuel existing self snapshot self1 _ Hz Hi).
  rewrite delete_scan_app.
  rewrite (delete_scan_no_hit server existing pre self1)
    by (apply passed_over_no_hit; exact Hpre).
  destruct (matches_delete_match existing entry Hm) as (label & Hr & Hsoa & Hd).
  rewrite delete_scan_cons, Hr. cbn [py_eq_str]. rewrite Hsoa, Hd.
  unfold _delete, _request. fold (delete_request existing). fold resp.
  apply Z.eqb_neq in H1. rewrite H1. cbn [mbind Outcome_bind].
  destruct (raise_for_status resp) as [[] | e |]; cbn [mbind Outcome_bind];
    try reflexivity.
  apply (delete_scan_no_hit server existing post).
  apply passed_over_no_hit. exact Hpost.
Qed.

Lemma delete_sends_one_request_witness :
  _apply_Delete no_content 1 a_record
                (cached "unit.tests." snapshot_tlsa_elsewhere)
  = (Ok tt,
     with_sent [mkRequest "DELETE" "/v2/zones/unit.tests./rrsets/A/a.unit.tests."
                          None None None]
               (cached "unit.tests." snapshot_tlsa_elsewhere)).
Proof.
  apply (delete_sends_one_request no_content 1 a_record
           (cached "unit.tests." snapshot_tlsa_elsewhere)
           (cached "unit.tests." snapshot_tlsa_elsewhere)
           (JArr snapshot_tlsa_elsewhere)
           [soa_entry; tlsa_entry "_443._tcp.unit.tests."] [] a_entry).
  - reflexivity.
  - reflexivity.
  - repeat constructor.
    + exists "SOA (6)", (JStr "unit.tests."). repeat split. left. reflexivity.
    + exists "TLSA (52)", (JStr "_443._tcp.unit.tests."). repeat split.
      right. left. reflexivity.
  - split; [reflexivity |]. exists "A (1)". split; reflexivity.
  - constructor.
  - simpl. lia.
Defined.

(** ** Applier: the rewriting of the changes and the run of a plan *)

(** X20.  The rewriting for a new zone keeps the number and the order of the
    changes and the record of each of them, and rewriting twice is
    rewriting once. *)
Theorem force_root_ns_update_keeps_records :
  forall (changes : list Change),
    length (_force_root_ns_update changes) = length changes
    /\ map record (_force_root_ns_update changes) = map record changes
    /\ _force_root_ns_update (_force_root_ns_update changes)
       = _force_root_ns_update changes.
Proof.
  intros changes. unfold _force_root_ns_update. split; [| split].
  - apply length_map.
  - rewrite map_map. apply map_ext. intros c.
    destruct (root_ns_create c); reflexivity.
  - rewrite map_map. apply map_ext. intros c.
    destruct (root_ns_create c) eqn:E; [| rewrite E; reflexivity].
    unfold root_ns_create. cbn [is_Create record]. rewrite andb_false_r.
    reflexivity.
Qed.

Lemma apply_changes_app server fuel pre : forall post self,
  apply_changes server fuel (pre ++ post) self
  = match apply_changes server fuel pre self with
    | (Ok _, self') => apply_changes server fuel post self'
    | other => other
    end.
Proof.
  induction pre as [| c pre IH]; intros post self; [reflexivity |].
  cbn [app apply_changes]. unfold mbind, M_bind.
  destruct (apply_change server fuel c self) as [[[] | e |] s1];
    [apply IH | reflexivity | reflexivity].
Qed.

(** X21.  The changes are applied in order and the first exception ends the run:
    the changes after the one that raised are not applied, and the
    provider is left as that change left it. *)
Theorem apply_changes_stops_at_first_error :
  forall (server : Server) (fuel : nat) (pre post : list Change)
         (change : Change) (self s0 s1 : Provider) (e : Exc),
    apply_changes server fuel pre self = (Ok tt, s0) ->
    apply_change server fuel change s0 = (Raise e, s1) ->
    apply_changes server fuel (pre ++ change :: post) self = (Raise e, s1).
Proof.
  intros server fuel pre post change self s0 s1 e Hpre Hc.
  rewrite apply_changes_app, Hpre. cbn [apply_changes].
  unfold mbind, M_bind. rewrite Hc. reflexivity.
Qed.

Lemma apply_changes_stops_at_first_error_witness :
  apply_changes refusing 1 [Create root_ns; Create cname_record; Delete a_record]
                (mkProvider [] "testacct" (Some [JStr "unit.tests."]) ∅)
  = (Raise (HTTPError 400 "Bad Request" "{}"),
     (apply_change refusing 1 (Create cname_record)
        (apply_changes refusing 1 [Create root_ns]
           (mkProvider [] "testacct" (Some [JStr "unit.tests."]) ∅)).2).2).
Proof.
  apply (apply_changes_stops_at_first_error refusing 1
           [Create root_ns] [Delete a_record] (Create cname_record)
           (mkProvider [] "testacct" (Some [JStr "unit.tests."]) ∅)
           (apply_changes refusing 1 [Create root_ns]
              (mkProvider [] "testacct" (Some [JStr "unit.tests."]) ∅)).2).
  - vm_compute. reflexivity.
  - vm_compute. reflexivity.
Defined.

Lemma cache_grows_refl self : cache_grows self self.
Proof. intros k v H. exact H. Qed.

Lemma cache_grows_trans s1 s2 s3 :
  cache_grows s1 s2 -> cache_grows s2 s3 -> cache_grows s1 s3.
Proof. unfold cache_grows. auto. Qed.

Lemma frame_cache_grows self self' :
  frame everywhere self self' -> cache_grows self self'.
Proof. intros (_ & _ & _ & Hk) k v H. rewrite Hk by exact I. exact H. Qed.

Lemma zone_records_cache_grows server fuel z :
  preserves cache_grows (zone_records server fuel z).
Proof.
  intros self. unfold zone_records.
  destruct (_zone_records self !! Zone.name z) eqn:Hc; [apply cache_grows_refl |].
  pose proof (zones_preserves server fuel everywhere self) as Hz.
  apply frame_cache_grows in Hz.
  destruct (zones server fuel self) as [[zs | e |] self1]; cbn [snd] in *;
    try exact Hz.
  destruct (negb (name_in (Zone.name z) zs)); [exact Hz |].
  match goal with
  | |- context [rrsets_paging server fuel ?p ?o ?a self1] =>
      pose proof (rrsets_paging_preserves server everywhere fuel p o a self1)
        as Hr;
      destruct (rrsets_paging server fuel p o a self1)
        as [[records | e |] self2]
  end; cbn [snd] in *; apply frame_cache_grows in Hr;
    try (eapply cache_grows_trans; [exact Hz | exact Hr]).
  intros k v Hk. cbn [_zone_records set_zone_records].
  destruct (decide (Zone.name z = k)) as [<- | Hne]; [congruence |].
  rewrite lookup_insert_ne by exact Hne. apply Hr, Hz. exact Hk.
Qed.

Lemma apply_change_cache_grows server fuel change :
  preserves cache_grows (apply_change server fuel change).
Proof.
  destruct change as [new | existing new | existing]; cbn [apply_change].
  - intros self. apply frame_cache_grows, _apply_Create_preserves.
  - intros self. apply frame_cache_grows, _apply_Update_preserves.
  - unfold _apply_Delete.
    apply preserves_bind_trans; [exact cache_grows_trans | |].
    + apply zone_records_cache_grows.
    + intros snapshot self. apply frame_cache_grows.
      apply (preserves_bind everywhere); [apply preserves_lift |].
      intros records. apply delete_scan_preserves.
Qed.

Lemma apply_changes_cache_grows server fuel changes :
  preserves cache_grows (apply_changes server fuel changes).
Proof.
  induction changes as [| change changes IH]; cbn [apply_changes].
  - intros self. apply cache_grows_refl.
  - apply preserves_bind_trans; [exact cache_grows_trans | |].
    + apply apply_change_cache_grows.
    + intros _. exact IH.
Qed.

(** X22.  When [_apply] has created the zone and a change then raises, the
    exception leaves the provider with the zone in its list and the empty
    placeholder as the zone's cached rrsets: a later [zone_records] for
    the zone returns the placeholder and asks the vendor nothing. *)
Theorem failed_apply_keeps_placeholder :
  forall (server : Server) (fuel : nat) (plan : Plan) (self self0 : Provider)
         (zs : list JSON) (payload : JSON) (e : Exc),
    zones server fuel self = (Ok zs, self0) ->
    name_in (Zone.name (desired plan)) zs = false ->
    (_post server "/v2/zones"
           (Some (zone_create_body (Zone.name (desired plan)) (_account self0)))
           self0).1 = Ok payload ->
    (_apply server fuel plan self).1 = Raise e ->
    let self' := (_apply server fuel plan self).2 in
    _zones self' = Some (zs ++ [JStr (Zone.name (desired plan))])
    /\ _zone_records self' !! Zone.name (desired plan) = Some (JObj [])
    /\ zone_records server fuel (desired plan) self' = (Ok (JObj []), self').
Proof.
  intros server fuel plan self self0 zs payload e Hz Hin Hp Hraise self'.
  subst self'.
  rewrite (_apply_absent server fuel plan self zs self0 Hz Hin) in *.
  cbv zeta in *. rewrite Hp in *.
  set (name := Zone.name (desired plan)) in *.
  set (start := seeded name zs _) in *.
  pose proof (apply_changes_cache_grows server fuel
                (_force_root_ns_update (changes plan)) start) as Hg.
  pose proof (apply_changes_preserves_zones server fuel
                (_force_root_ns_update (changes plan)) start)
    as (_ & _ & Hzs & _).
  unfold mbind, M_bind in *.
  destruct (apply_changes server fuel (_force_root_ns_update (changes plan))
                          start) as [[[] | e' |] s2];
    cbn [fst snd] in *; try discriminate Hraise.
  assert (Hc : _zone_records s2 !! name = Some (JObj [])).
  { apply Hg. unfold start, seeded. cbn [_zone_records].
    apply lookup_insert_eq. }
  split; [apply Hzs; reflexivity |]. split; [exact Hc |].
  unfold zone_records. fold name. rewrite Hc. reflexivity.
Qed.

Lemma failed_apply_keeps_placeholder_witness :
  _zone_records
    (_apply refusing 1 sample_plan (mkProvider [] "testacct" (Some []) ∅)).2
    !! "unit.tests."
  = Some (JObj []).
Proof.
  destruct (failed_apply_keeps_placeholder refusing 1 sample_plan
              (mkProvider [] "testacct" (Some []) ∅)
              (mkProvider [] "testacct" (Some []) ∅) [] (JObj [])
              (HTTPError 400 "Bad Request" "{}"))
    as (_ & H & _).
  - reflexivity.
  - reflexivity.
  - reflexivity.
  - vm_compute. reflexivity.
  - exact H.
Defined.

(** ** Populate *)







(** X24.  [populate] leaves out the SOA and the A rrsets of directional pools:
    the grouping is the same as if they were not in the vendor's list. *)
Theorem populate_skips_soa_and_pools :
  forall (hostname_from_fqdn : Zone.t -> JSON -> Outcome string) (z : Zone.t)
         (values : list (string * list (string * JSON)))
         (entry owner : JSON) (name : string),
    hostname_from_fqdn z owner = Ok name ->
    plain_rrset entry owner "SOA (6)" \/ pool_rrset entry owner ->
    populate_step hostname_from_fqdn z values entry = Ok values.
Proof.
  intros hostname_from_fqdn z values entry owner name Hh
         [(d & -> & Ho & Hr & Hp) | (d & profile & -> & Ho & Hr & Hp & Hc)];
    unfold populate_step, py_getitem; rewrite Ho; cbn [mbind Outcome_bind];
    rewrite Hh; cbn [mbind Outcome_bind]; rewrite Hr;
    cbn [mbind Outcome_bind py_eq_str String.eqb Ascii.eqb Bool.eqb];
    [reflexivity |].
  unfold py_get. rewrite Hp. cbn [mbind Outcome_bind]. rewrite Hc.
  cbn [mbind Outcome_bind py_eq_str]. rewrite String.eqb_refl. reflexivity.
Qed.

Lemma populate_skips_soa_and_pools_witness :
  populate_step hostname_in_unit_tests (Zone.mk "unit.tests.") [] soa_entry
  = Ok [].
Proof.
  apply (populate_skips_soa_and_pools hostname_in_unit_tests
           (Zone.mk "unit.tests.") [] soa_entry (JStr "unit.tests.")
           EmptyString).
  - reflexivity.
  - left. eexists. repeat split.
Defined.

(** X25.  The flag that [populate] returns tells whether the vendor has any
    rrset for the zone, not whether any record came out of them: it is
    set as soon as the list of rrsets is not empty. *)
Theorem populate_exists_iff_rrsets :
  forall (server : Server) (fuel : nat)
         (hostname_from_fqdn : Zone.t -> JSON -> Outcome string) (z : Zone.t)
         (self self1 : Provider) (rrsets : list JSON)
         (values : list (string * list (string * JSON))),
    zone_records server fuel z self = (Ok (JArr rrsets), self1) ->
    populate_loop hostname_from_fqdn z [] rrsets = Ok values ->
    populate_values server fuel hostname_from_fqdn z self
    = (Ok (negb (Nat.eqb (length rrsets) 0), values), self1).
Proof.
  intros server fuel hostname_from_fqdn z self self1 rrsets values Hz Hl.
  unfold populate_values. rewrite (bind_ok _ _ _ _ _ Hz).
  cbn [py_truthy]. destruct rrsets as [| r rrsets].
  - cbn [populate_loop] in Hl. injection Hl as <-. reflexivity.
  - cbn [length Nat.eqb negb py_iter]. unfold lift, mbind, M_bind.
    rewrite Hl. reflexivity.
Qed.

Lemma populate_exists_iff_rrsets_witness :
  populate_values accepting 1 hostname_in_unit_tests (Zone.mk "unit.tests.")
                  (cached "unit.tests." [soa_entry])
  = (Ok (true, []), cached "unit.tests." [soa_entry]).
Proof.
  apply (populate_exists_iff_rrsets accepting 1 hostname_in_unit_tests
           (Zone.mk "unit.tests.") (cached "unit.tests." [soa_entry])
           (cached "unit.tests." [soa_entry]) [soa_entry] []).
  - reflexivity.
  - reflexivity.
Defined.
